(** * guidata.dataset.dataitems: validation, conversion and serialization
      of the concrete data items

    A shallow embedding of [guidata/dataset/dataitems.py] (Python 2) and the
    properties of its items: numeric range and parity checks, text and path
    validation, conversion from text, choice normalization and the boolean
    mask encoding of multiple choices. *)

From Stdlib Require Import ZArith Lia Bool List Ascii String Floats.
From stdpp Require Import base gmap strings list.

Open Scope Z_scope.
Set Warnings "-register-all".

(** ** Python values and the builtins the module calls *)

Module Py.

(** The values that flow through the items.  [VInt] is Python 2's machine
    [int], [VLong] its unbounded [long]; [VStr] is a byte string and
    [VUnicode] a text string. *)
Inductive value :=
| VNone
| VBool (b : bool)
| VInt (z : Z)
| VLong (z : Z)
| VFloat (f : float)
| VStr (s : string)
| VUnicode (s : string)
| VTuple (l : list value)
| VList (l : list value).

(** The two classes a numeric item can carry in its [type] attribute. *)
Inductive pytype := TInt | TFloat.

(** An instance of [int] or [float], seen as a number.  [bool] is a subclass
    of [int]: [True] and [False] are the integers 1 and 0. *)
Inductive number :=
| NInt (z : Z)
| NFloat (f : float).

(** [sys.maxint] of a 64-bit build; an [int] lies in
    [-maxint - 1 .. maxint]. *)
Definition maxint : Z := 2 ^ 63 - 1.

Definition int_range (z : Z) : bool := (- maxint - 1 <=? z) && (z <=? maxint).


(** [isinstance(v, t)], returning the instance as a number: it holds of the
    class and of its subclasses, so of a [bool] for [int]; a [long] is not an
    [int]. *)
Definition as_instance (v : value) (t : pytype) : option number :=
  match v, t with
  | VInt z, TInt => Some (NInt z)
  | VBool b, TInt => Some (NInt (if b then 1 else 0))
  | VFloat f, TFloat => Some (NFloat f)
  | _, _ => None
  end.

(** Conversion of an integer to a double, as the C cast does it: rounded to
    the nearest representable value, ties to even. *)
Definition float_of_int (z : Z) : float :=
  SF2Prim (binary_normalize prec emax z 0 false).

(** Python compares an integer with a float exactly, without rounding the
    integer: [None] when the float is a NaN, else how the float stands to
    the integer. *)
Definition float_compare_int (f : float) (z : Z) : option comparison :=
  match Prim2SF f with
  | S754_nan => None
  | S754_infinity s => Some (if s then Lt else Gt)
  | S754_zero _ => Some (0 ?= z)
  | S754_finite s m e =>
      let v := cond_Zopp s (Z.pos m) in
      Some (if 0 <=? e then v * 2 ^ e ?= z else v ?= z * 2 ^ (- e))
  end.

(** [a == b] on numbers. *)
Definition py_eq (a b : number) : bool :=
  match a, b with
  | NInt x, NInt y => x =? y
  | NFloat x, NFloat y => (x =? y)%float
  | NInt x, NFloat y | NFloat y, NInt x =>
      match float_compare_int y x with Some Eq => true | _ => false end
  end.

(** [a < b] on numbers. *)
Definition py_lt (a b : number) : bool :=
  match a, b with
  | NInt x, NInt y => x <? y
  | NFloat x, NFloat y => (x <? y)%float
  | NInt x, NFloat y =>
      match float_compare_int y x with Some Gt => true | _ => false end
  | NFloat x, NInt y =>
      match float_compare_int x y with Some Lt => true | _ => false end
  end.

(** [a > b], [a >= b] and [a <= b] on numbers. *)
Definition py_gt (a b : number) : bool := py_lt b a.



(** [x // y] on integers, for a positive [y]: the floor of the quotient. *)
Definition floordiv (x y : Z) : Z := x / y.

(** [x / y] with [from __future__ import division] and a float [y]: the
    integer is converted, then the doubles are divided. *)
Definition truediv_float (x : Z) (y : float) : float :=
  (float_of_int x / y)%float.

(** Truth value of an object ([bool(v)]): [None], [False], zero and the
    empty string, tuple and list are false. *)
Definition truth (v : value) : bool :=
  match v with
  | VNone => false
  | VBool b => b
  | VInt z | VLong z => negb (z =? 0)
  | VFloat f => negb (f =? 0)%float
  | VStr s | VUnicode s => negb (String.eqb s "")
  | VTuple l | VList l => match l with [] => false | _ => true end
  end.

(** Truth value of an optional flag ([None], [True] or [False]). *)
Definition flag (o : option bool) : bool :=
  match o with Some b => b | None => false end.

(** Outcome of a call that may raise. *)
Inductive exn :=
| SyntaxError | NameError | TypeError | ValueError
| ZeroDivisionError | OverflowError | IndexError | AttributeError.

Inductive result (A : Type) :=
| Returns (a : A)
| Raises (e : exn).
Arguments Returns {A} a.
Arguments Raises {A} e.

Definition bind {A B} (r : result A) (k : A -> result B) : result B :=
  match r with
  | Returns a => k a
  | Raises e => Raises e
  end.

End Py.

Import Py.

(** ** Numeric items *)

Module NumericTypeItem.

(** The attributes [__init__] stores: the label, default and help of
    [DataItem] and, in the data group, [min], [max] and [nonzero].  [type] is
    the class attribute, set by the subclasses. *)
Record t := mk {
  type : pytype;
  label : string;
  default : value;
  help : string;
  min : option number;
  max : option number;
  nonzero : option bool
}.

Definition __init__ (ty : pytype) (label : string) (default : value)
    (min max : option number) (nonzero : option bool) (help : string) : t :=
  mk ty label default help min max nonzero.

(** [check_value]: the type test, the nonzero test, then the two bounds. *)
Definition check_value (self : t) (value : value) : bool :=
  match as_instance value (type self) with
  | None => false
  | Some v =>
      if flag (nonzero self) && py_eq v (NInt 0) then false
      else
        if match min self with
           | Some _min => py_lt v _min
           | None => false
           end
        then false
        else
          if match max self with
             | Some _max => py_gt v _max
             | None => false
             end
          then false
          else true
  end.

(** The pattern [^([\d\(\)\+/\-\*.]|e)+$] of [from_string]. *)

Definition LF : ascii := "010"%char.

(** [\d] without the UNICODE flag: the ten ASCII digits. *)
Definition is_digit (c : ascii) : bool :=
  let n := nat_of_ascii c in (48 <=? n)%nat && (n <=? 57)%nat.

(** The class [[\d\(\)\+/\-\*.]]. *)
Definition in_class (c : ascii) : bool :=
  is_digit c
  || existsb (Ascii.eqb c) ["("; ")"; "+"; "/"; "-"; "*"; "."]%char.

(** The group [([...]|e)]: one character of the class, or the letter e. *)
Definition in_group (c : ascii) : bool := in_class c || Ascii.eqb c "e".

(** What is left of the text after the longest run of group characters,
    which is the run the greedy [+] takes. *)
Fixpoint skip_group (s : string) : string :=
  match s with
  | String c r => if in_group c then skip_group r else s
  | EmptyString => EmptyString
  end.

(** [$] without the MULTILINE flag matches at the end of the text and just
    before a newline that is the last character of the text. *)
Definition at_dollar (s : string) : bool :=
  match s with
  | EmptyString => true
  | String c EmptyString => Ascii.eqb c LF
  | _ => false
  end.

(** [re.match(r'^([\d\(\)\+/\-\*.]|e)+$', value)] as a truth value.  A shorter
    run than the longest cannot reach [$]: it is followed by a group
    character. *)
Definition re_match (value : string) : bool :=
  match value with
  | String c r => in_group c && at_dollar (skip_group r)
  | EmptyString => false
  end.

(** [unicode(value)]: the argument is text (a unicode string or a Qt
    string), and the conversion keeps its characters. *)
Definition unicode (value : string) : string := value.

Section from_string.

(** The builtins [eval] and the call [self.type(x)] of the class [int] or
    [float], each returning or raising. *)
Variable eval : string -> result value.
Variable call : pytype -> value -> result value.

(** [from_string]: [None] is [VNone]. *)
Definition from_string (self : t) (value : string) : result Py.value :=
  let value := unicode value in
  if re_match value then
    match bind (eval value) (call (type self)) with
    | Returns r => Returns r
    | Raises _ => Returns VNone
    end
  else Returns VNone.

End from_string.

End NumericTypeItem.

Module FloatItem.

Definition __init__ (label : string) (default : value)
    (min max : option number) (nonzero : option bool) (help : string)
  : NumericTypeItem.t :=
  NumericTypeItem.__init__ TFloat label default min max nonzero help.

End FloatItem.

Module IntItem.

(** An integer item: the numeric item of type [int] with the [even] flag
    added to its data group. *)
Record t := mk {
  base : NumericTypeItem.t;
  even : option bool
}.

Definition __init__ (label : string) (default : value)
    (min max : option number) (nonzero even : option bool) (help : string)
  : t :=
  mk (NumericTypeItem.__init__ TInt label default min max nonzero help) even.

(** [is_even = value//2 == value/2.]: the floor quotient, an integer,
    compared with the float quotient. *)
Definition is_even (value : Z) : bool :=
  py_eq (NInt (floordiv value 2)) (NFloat (truediv_float value 2)).

Definition check_value (self : t) (value : value) : bool :=
  let valid := NumericTypeItem.check_value (base self) value in
  if negb valid then false
  else
    match even self, as_instance value TInt with
    | Some even, Some (NInt v) =>
        let is_even := is_even v in
        if (even && negb is_even) || (negb even && is_even) then false
        else true
    | _, _ => true
    end.

End IntItem.

(** ** Text items *)

Module StringItem.

Record t := mk {
  label : string;
  default : value;
  help : string;
  notempty : option bool
}.

Definition __init__ (label : string) (default : value)
    (notempty : option bool) (help : string) : t :=
  mk label default help notempty.

Definition check_value (self : t) (value : value) : bool :=
  let notempty := notempty self in
  if flag notempty && negb (truth value) then false else true.

End StringItem.

(** ** Path items *)

Module FilesOpenItem.

Section check_value.

(** [os.path.exists] and [os.path.isfile]. *)
Variable exists_ : string -> bool.
Variable isfile : string -> bool.

(** The loop over the paths, [allexist] being its accumulator. *)
Definition check_value (value : list string) : bool :=
  fold_left (fun allexist path => allexist && exists_ path && isfile path)
    value true.

End check_value.

End FilesOpenItem.

(** ** The serialization streams *)

Module Stream.

(** Modelled from the spec: the abstract writer and reader, which
    [dataitems.py] only calls ([write_sequence], [read_sequence]).  A writer
    holds what was written, in order; a reader what is still to read. *)
Inductive item :=
| Value (v : value)
| Sequence (seq : list value).

Definition writer : Type := list item.
Definition reader : Type := list item.

(** Modelled from the spec: [writer.write_sequence(seq)] appends one ordered
    sequence. *)
Definition write_sequence (w : writer) (seq : list value) : writer :=
  w ++ [Sequence seq].

(** Modelled from the spec: [reader.read_sequence()] takes the next
    sequence, and raises when the next item is not one. *)
Definition read_sequence (r : reader) : result (list value * reader) :=
  match r with
  | Sequence seq :: r' => Returns (seq, r')
  | _ => Raises ValueError
  end.

End Stream.

(** ** The base item and its property store *)

Module DataItem.

(** A choice key: the position index of an entry, or a key the caller gave
    (an integer or a string).  [==] on keys is equality. *)
Inductive key :=
| KInt (z : Z)
| KStr (s : string).

#[export] Instance key_eq_dec : EqDecision key.
Proof. solve_decision. Defined.

(** A label: a byte string ([str]) or a text string ([unicode]). *)
Inductive text :=
| Str (s : string)
| Unicode (s : string).

(** A normalized choice [(key, label, image)]; the image may be [None]. *)
Definition entry : Type := key * text * option string.

(** The value an item of the choice family holds: [None], one key, or a
    sequence of keys. *)
Inductive choice_value :=
| CNone
| CKey (k : key)
| CKeys (l : list key).

(** What a property holds: a plain value, a shape (a pair of integers), a
    list of choices, an [ItemProperty] wrapping a function of the item's
    value, or a callback. *)
Inductive prop (V : Type) :=
| PValue (v : value)
| PShape (rows cols : Z)
| PChoices (l : list entry)
| PItemProperty (f : V -> list entry)
| PCallback (f : V -> V).
Arguments PValue {V} v.
Arguments PShape {V} rows cols.
Arguments PChoices {V} l.
Arguments PItemProperty {V} f.
Arguments PCallback {V} f.

(** Modelled from the spec: the class [DataItem] of
    [guidata.dataset.datatypes], of which [dataitems.py] has only the calls.
    An item has a label, a default, a help text and a property store: a
    mapping from a group name to a mapping from attribute names to
    values. *)
Record t (V : Type) := mk {
  label : string;
  default : V;
  help : string;
  _props : gmap string (gmap string (prop V))
}.
Arguments mk {V} label default help _props.
Arguments label {V} t.
Arguments default {V} t.
Arguments help {V} t.
Arguments _props {V} t.

(** Modelled from the spec: [DataItem.__init__(label, default, help)], with
    an empty property store. *)
Definition __init__ {V} (label : string) (default : V) (help : string) : t V :=
  mk label default help ∅.

(** Modelled from the spec: [set_prop(realm, name=v)] stores [v] under
    [name] in the group [realm] and leaves every other attribute as it
    is. *)
Definition set_prop {V} (self : t V) (realm name : string) (v : prop V)
  : t V :=
  mk (label self) (default self) (help self)
     (<[realm := <[name := v]> (from_option id ∅ (_props self !! realm))]>
        (_props self)).

(** Modelled from the spec: [get_prop(realm, name)] reads the store. *)
Definition get_prop {V} (self : t V) (realm name : string)
  : option (prop V) :=
  _props self !! realm ≫= fun group => group !! name.

(** Modelled from the spec: [get_prop_value(realm, instance, name)] reads
    the store and resolves an [ItemProperty] on the value the instance
    holds. *)
Definition get_prop_value {V} (self : t V) (realm : string) (value : V)
    (name : string) : option (prop V) :=
  match get_prop self realm name with
  | Some (PItemProperty f) => Some (PChoices (f value))
  | p => p
  end.

End DataItem.

Import DataItem.

(** ** Choice items *)

Module ChoiceItem.

Definition t : Type := DataItem.t choice_value.

(** An entry of the [choices] argument: a [(key, label)] tuple, or a label
    alone. *)
Inductive choice :=
| Tuple (key : key) (value : text)
| Label (value : text).

(** The [choices] argument: a function, or a sequence of entries. *)
Inductive choices_arg :=
| Callable (f : choice_value -> list entry)
| Sequence (l : list choice).

(** The [default] argument: the class [FirstChoice], or a value. *)
Inductive default_arg :=
| FirstChoice
| Default (v : choice_value).

Definition callable (choices : choices_arg) : bool :=
  match choices with Callable _ => true | Sequence _ => false end.

(** [enumerate(l)], counting from [idx]. *)
Fixpoint enumerate {A} (idx : Z) (l : list A) : list (Z * A) :=
  match l with
  | [] => []
  | x :: l' => (idx, x) :: enumerate (idx + 1) l'
  end.

Section normalize.

(** [guidata.utils.utf8_to_unicode], from bytes to text. *)
Variable utf8_to_unicode : string -> string.

Definition _normalize_choice (idx : Z) (choice_tuple : choice) : entry :=
  let '(key, value) :=
    match choice_tuple with
    | Tuple key value => (key, value)
    | Label value => (KInt idx, value)
    end in
  let value :=
    match value with
    | Str s => Unicode (utf8_to_unicode s)
    | Unicode s => Unicode s
    end in
  (key, value, None).

(** The loop of [__init__] over [enumerate(choices)]. *)
Definition normalize_choices (choices : list choice) : list entry :=
  fold_left
    (fun _choices_data '(idx, choice) =>
       _choices_data ++ [_normalize_choice idx choice])
    (enumerate 0 choices) [].

Definition __init__ (label : string) (choices : choices_arg)
    (default : default_arg) (help : string) : result t :=
  let _choices_data :=
    match choices with
    | Callable f => PItemProperty f
    | Sequence l => PChoices (normalize_choices l)
    end in
  bind
    (match default with
     | FirstChoice =>
         if negb (callable choices) then
           match _choices_data with
           | PChoices ((key, _, _) :: _) => Returns (CKey key)
           | _ => Raises IndexError
           end
         else Returns CNone
     | Default v => Returns v
     end)
    (fun default =>
       Returns
         (set_prop (DataItem.__init__ label default help)
            "data" "choices" _choices_data)).

End normalize.

End ChoiceItem.

Module MultipleChoiceItem.

Definition t : Type := DataItem.t choice_value.

Section init.

Variable utf8_to_unicode : string -> string.

(** [default=()] is the empty selection. *)
Definition __init__ (label : string) (choices : ChoiceItem.choices_arg)
    (default : list key) (help : string) : result t :=
  bind
    (ChoiceItem.__init__ utf8_to_unicode label choices
       (ChoiceItem.Default (CKeys default)) help)
    (fun self => Returns (set_prop self "display" "shape" (PShape 1 (-1)))).

End init.

(** Items are objects: [heap] maps the reference of an item to its state.  A
    method that changes [self] and returns it gives the reference back with
    the new heap. *)
Definition ref : Type := positive.
Definition heap : Type := gmap ref t.

Definition horizontal (self : ref) (row_nb : Z) (h : heap) : ref * heap :=
  (self,
   alter (fun it => set_prop it "display" "shape" (PShape row_nb (-1)))
     self h).

Definition vertical (self : ref) (col_nb : Z) (h : heap) : ref * heap :=
  (self,
   alter (fun it => set_prop it "display" "shape" (PShape (-1) col_nb))
     self h).

(** [key in value], for a sequence of keys. *)
Definition key_in (key : key) (value : list DataItem.key) : bool :=
  bool_decide (key ∈ value).

(** The choices of the item, resolved on the value the instance holds. *)
Definition choices_of (self : t) (value : list key) : result (list entry) :=
  match get_prop_value self "data" (CKeys value) "choices" with
  | Some (PChoices l) => Returns l
  | _ => Raises AttributeError
  end.

Section serialization.

(** The record instance and the two accessors of [DataItem] that reach
    the value it holds for this item. *)
Context {Inst : Type}.
Variable get_value : t -> Inst -> list key.
Variable __set__ : t -> Inst -> list key -> Inst.

Definition serialize (self : t) (instance : Inst) (writer : Stream.writer)
  : result Stream.writer :=
  let value := get_value self instance in
  bind (choices_of self value)
    (fun _choices =>
       let seq :=
         fold_left
           (fun seq '(key, _label, _img) =>
              seq ++ [VBool (key_in key value)])
           _choices [] in
       Returns (Stream.write_sequence writer seq)).

Definition deserialize (self : t) (instance : Inst)
    (reader : Stream.reader) : result (Inst * Stream.reader) :=
  bind (Stream.read_sequence reader)
    (fun '(flags, reader) =>
       bind (choices_of self (get_value self instance))
         (fun _choices =>
            bind
              (fold_left
                 (fun acc '(idx, flag) =>
                    bind acc
                      (fun value =>
                         if truth flag then
                           match _choices !! Z.to_nat idx with
                           | Some (key, _, _) => Returns (value ++ [key])
                           | None => Raises IndexError
                           end
                         else Returns value))
                 (ChoiceItem.enumerate 0 flags) (Returns []))
              (fun value =>
                 Returns (__set__ self instance value, reader)))).

End serialization.

End MultipleChoiceItem.

(** ** Button items *)

Module ButtonItem.

Definition t : Type := DataItem.t value.

Definition __init__ (label : string) (callback : value -> value)
    (icon default : value) (help : string) : t :=
  set_prop
    (set_prop (DataItem.__init__ label default help)
       "display" "callback" (PCallback callback))
    "display" "icon" (PValue icon).

(** [serialize] and [deserialize] are [pass]: what they return is the state
    of the instance and of the stream after the call. *)
Definition serialize {Inst : Type} (self : t) (instance : Inst)
    (writer : Stream.writer) : Inst * Stream.writer :=
  (instance, writer).

Definition deserialize {Inst : Type} (self : t) (instance : Inst)
    (reader : Stream.reader) : Inst * Stream.reader :=
  (instance, reader).

End ButtonItem.

(** * The specification's wording and concrete instances *)

Section NumericSpec.

Import NumericTypeItem.


(** An integer item without constraints, and a float item with [min=0]. *)
Definition plain_int_item : NumericTypeItem.t :=
  NumericTypeItem.__init__ TInt "n" VNone None None None "".



End NumericSpec.

(** The odd integer 2^53 + 1 = 9007199254740993, an [int] of a 64-bit build
    that no double represents. *)
Definition large_odd : Z := 2 ^ 53 + 1.

(** ** An executable fragment of the builtins

    [eval] and the classes [int] and [float] are arguments of [from_string]
    in the model.  To run it on concrete texts they are instantiated with an
    evaluator of integer expressions: decimal literals, [+], [-], [*],
    unary signs and parentheses, with the newlines Python accepts at the end
    of an expression. *)

Module PyEval.

Inductive token :=
| TLit (digits : list ascii)
| TPlus
| TMinus
| TStar
| TOpen
| TClose.

(** The text without the newlines at its end. *)
Fixpoint rstrip (s : string) : string :=
  match s with
  | EmptyString => EmptyString
  | String c r =>
      match rstrip r with
      | EmptyString =>
          if Ascii.eqb c NumericTypeItem.LF then EmptyString
          else String c EmptyString
      | r' => String c r'
      end
  end.

(** The tokens of a text; a digit joins the literal that follows it. *)
Fixpoint lex (s : string) : option (list token) :=
  match s with
  | EmptyString => Some []
  | String c r =>
      match lex r with
      | None => None
      | Some ts =>
          if NumericTypeItem.is_digit c then
            match ts with
            | TLit ds :: ts' => Some (TLit (c :: ds) :: ts')
            | _ => Some (TLit [c] :: ts)
            end
          else if Ascii.eqb c "+" then Some (TPlus :: ts)
          else if Ascii.eqb c "-" then Some (TMinus :: ts)
          else if Ascii.eqb c "*" then Some (TStar :: ts)
          else if Ascii.eqb c "(" then Some (TOpen :: ts)
          else if Ascii.eqb c ")" then Some (TClose :: ts)
          else None
      end
  end.

(** The value of a decimal literal; one with a leading zero (octal in
    Python 2) is outside the fragment. *)
Definition literal (ds : list ascii) : option Z :=
  match ds with
  | [] => None
  | [d] => Some (Z.of_nat (nat_of_ascii d) - 48)
  | d :: _ =>
      if Ascii.eqb d "0" then None
      else
        Some (fold_left
                (fun acc c => 10 * acc + (Z.of_nat (nat_of_ascii c) - 48))
                ds 0)
  end.

(** Recursive descent with Python's precedences: a sign binds tighter than
    [*], which binds tighter than [+] and [-].  Each function returns the
    value read and the tokens left. *)
Fixpoint parse_expr (fuel : nat) (ts : list token) : option (Z * list token) :=
  match fuel with
  | O => None
  | S n =>
      match parse_term n ts with
      | Some (v, rest) => expr_tail n v rest
      | None => None
      end
  end
with expr_tail (fuel : nat) (acc : Z) (ts : list token)
  : option (Z * list token) :=
  match fuel with
  | O => None
  | S n =>
      match ts with
      | TPlus :: rest =>
          match parse_term n rest with
          | Some (v, rest') => expr_tail n (acc + v) rest'
          | None => None
          end
      | TMinus :: rest =>
          match parse_term n rest with
          | Some (v, rest') => expr_tail n (acc - v) rest'
          | None => None
          end
      | _ => Some (acc, ts)
      end
  end
with parse_term (fuel : nat) (ts : list token) : option (Z * list token) :=
  match fuel with
  | O => None
  | S n =>
      match parse_factor n ts with
      | Some (v, rest) => term_tail n v rest
      | None => None
      end
  end
with term_tail (fuel : nat) (acc : Z) (ts : list token)
  : option (Z * list token) :=
  match fuel with
  | O => None
  | S n =>
      match ts with
      | TStar :: rest =>
          match parse_factor n rest with
          | Some (v, rest') => term_tail n (acc * v) rest'
          | None => None
          end
      | _ => Some (acc, ts)
      end
  end
with parse_factor (fuel : nat) (ts : list token) : option (Z * list token) :=
  match fuel with
  | O => None
  | S n =>
      match ts with
      | TPlus :: rest => parse_factor n rest
      | TMinus :: rest =>
          match parse_factor n rest with
          | Some (v, rest') => Some (- v, rest')
          | None => None
          end
      | TLit ds :: rest =>
          match literal ds with
          | Some v => Some (v, rest)
          | None => None
          end
      | TOpen :: rest =>
          match parse_expr n rest with
          | Some (v, TClose :: rest') => Some (v, rest')
          | _ => None
          end
      | _ => None
      end
  end.

(** An integer result is an [int] when it fits, else a [long]. *)
Definition mk_int (z : Z) : value :=
  if int_range z then VInt z else VLong z.

(** [eval(text)] on the fragment.  Outside it the answer is [SyntaxError],
    which is Python's answer for most such texts and not for all (it
    evaluates float literals, [/] and [**]): the instance is meant for texts
    of the fragment. *)
Definition eval (text : string) : result value :=
  match lex (rstrip text) with
  | Some ts =>
      match parse_expr (4 * length ts + 4) ts with
      | Some (v, []) => Returns (mk_int v)
      | _ => Raises SyntaxError
      end
  | None => Raises SyntaxError
  end.

(** The integer part of a double, towards zero. *)
Definition trunc (f : float) : result Z :=
  match Prim2SF f with
  | S754_nan => Raises ValueError
  | S754_infinity _ => Raises OverflowError
  | S754_zero _ => Returns 0
  | S754_finite s m e =>
      Returns
        (cond_Zopp s
           (if 0 <=? e then Z.pos m * 2 ^ e else Z.pos m / 2 ^ (- e)))
  end.

(** [ty(x)] for the classes [int] and [float], on numbers; [None], tuples and
    lists are a [TypeError].  Strings, which the classes parse, are not
    covered (the instance raises): [eval] returns none here. *)
Definition call (ty : pytype) (x : value) : result value :=
  match ty, x with
  | TInt, VInt z | TInt, VLong z => Returns (mk_int z)
  | TInt, VBool b => Returns (VInt (if b then 1 else 0))
  | TInt, VFloat f => bind (trunc f) (fun z => Returns (mk_int z))
  | TFloat, VInt z | TFloat, VLong z =>
      let f := float_of_int z in
      if is_infinity f then Raises OverflowError else Returns (VFloat f)
  | TFloat, VBool b => Returns (VFloat (if b then 1 else 0))
  | TFloat, VFloat f => Returns (VFloat f)
  | _, VStr _ | _, VUnicode _ => Raises ValueError
  | _, _ => Raises TypeError
  end.

End PyEval.


(** The grammar as the specification words it: one or more characters, each a
    digit, a parenthesis, one of [+ - * /], the decimal point or the letter
    e. *)
Definition grammar_char (c : ascii) : bool :=
  existsb (Ascii.eqb c) (list_ascii_of_string "0123456789()+-*/.e").

Definition spec_grammar (text : string) : bool :=
  negb (String.eqb text "")
  && forallb grammar_char (list_ascii_of_string text).

(** ** A concrete file system, decoder and record instance *)

(** A file system with one directory and one regular file. *)
Definition demo_exists (path : string) : bool :=
  String.eqb path "/etc" || String.eqb path "/etc/passwd".

Definition demo_isfile (path : string) : bool := String.eqb path "/etc/passwd".

(** Text is held as its UTF-8 bytes, so that decoding well-formed UTF-8 keeps
    the bytes. *)
Definition demo_utf8_to_unicode (s : string) : string := s.

(** A record instance that holds the selections of its multiple-choice items
    by label, and answers the item's default for a label it does not hold. *)
Definition demo_get_value (self : MultipleChoiceItem.t)
    (instance : gmap string (list key)) : list key :=
  match instance !! DataItem.label self with
  | Some value => value
  | None =>
      match DataItem.default self with
      | CKeys l => l
      | _ => []
      end
  end.

Definition demo_set (self : MultipleChoiceItem.t)
    (instance : gmap string (list key)) (value : list key)
  : gmap string (list key) :=
  <[DataItem.label self := value]> instance.

(** ** The mask of a selection *)

(** The keys of a list of choices, in its order. *)
Definition keys (choices : list entry) : list key :=
  map (fun e : entry => e.1.1) choices.

(** One boolean per key, in the order of the keys: whether the key is in the
    selection. *)
Definition mask (value : list key) (ks : list key) : list Py.value :=
  map (fun k => VBool (bool_decide (k ∈ value))) ks.

(** The keys that are in the selection, in the order of the keys. *)
Definition selected (value : list key) (ks : list key) : list key :=
  List.filter (fun k => bool_decide (k ∈ value)) ks.

(** The runs of group characters. *)
Definition all_group (s : string) : bool :=
  forallb NumericTypeItem.in_group (list_ascii_of_string s).

(** * Further items of the module *)

(** ** Paths to save, to open, and directories *)

(** [isinstance(value, (unicode, str))], the [type] the path items inherit
    from [StringItem], returning the characters of the string. *)
Definition as_string (value : value) : option string :=
  match value with
  | VStr s | VUnicode s => Some s
  | _ => None
  end.

Module FileSaveItem.

(** [check_value] reads no attribute of the item. *)
Definition check_value (value : value) : bool :=
  match as_string value with
  | None => false
  | Some s => (0 <? String.length s)%nat
  end.

End FileSaveItem.

Module FileOpenItem.

Section check_value.

Variable exists_ : string -> bool.
Variable isfile : string -> bool.

Definition check_value (value : value) : bool :=
  match as_string value with
  | None => false
  | Some path => exists_ path && isfile path
  end.

End check_value.

End FileOpenItem.

Module DirectoryItem.

Section check_value.

Variable exists_ : string -> bool.
Variable isdir : string -> bool.

Definition check_value (value : value) : bool :=
  match as_string value with
  | None => false
  | Some path => exists_ path && isdir path
  end.

End check_value.

End DirectoryItem.

(** The directories of the concrete file system. *)
Definition demo_isdir (path : string) : bool := String.eqb path "/etc".

(** An evaluator that differs from the executable fragment on every text
    the pattern of [from_string] rejects. *)
Definition other_eval (text : string) : result value :=
  if NumericTypeItem.re_match text then PyEval.eval text
  else Returns (VInt 0).

(** ** Choices with images *)

Module ImageChoiceItem.

(** A normalized choice whose key, label and image are any values. *)
Definition entry : Type := value * value * value.

Section normalize.

Variable utf8_to_unicode : string -> string.

(** [choice_tuple] is given by the items of the tuple, which the [assert]
    asks for.  Unpacking a tuple that has neither three items nor two raises
    [ValueError]. *)
Definition _normalize_choice (idx : Z) (choice_tuple : list value)
  : result entry :=
  bind
    (match choice_tuple with
     | [key; value; img] => Returns (key, value, img)
     | [value; img] => Returns (VInt idx, value, img)
     | _ => Raises ValueError
     end)
    (fun '(key, value, img) =>
       let value :=
         match value with
         | VStr s => VUnicode (utf8_to_unicode s)
         | _ => value
         end in
       Returns (key, value, img)).

(** The loop of [ChoiceItem.__init__] over [enumerate(choices)], with this
    class's [_normalize_choice]. *)
Definition normalize_choices (choices : list (list value))
  : result (list entry) :=
  fold_left
    (fun _choices_data '(idx, choice) =>
       bind _choices_data
         (fun data =>
            bind (_normalize_choice idx choice)
              (fun e => Returns (data ++ [e]))))
    (ChoiceItem.enumerate 0 choices) (Returns []).

End normalize.

End ImageChoiceItem.

(** ** Reading a mask *)

(** The keys that stand at the positions of the flags that are true. *)
Definition picked (flags : list value) (ks : list key) : list key :=
  map snd (List.filter (fun p => truth (fst p)) (combine flags ks)).

(** The key an entry of the [choices] argument gets at position [i]. *)
Definition key_at (i : nat) (c : ChoiceItem.choice) : key :=
  match c with
  | ChoiceItem.Tuple k _ => k
  | ChoiceItem.Label _ => KInt (Z.of_nat i)
  end.

(** * The distribution helpers ([guidata/disthelpers.py]) *)

Module Disthelpers.

(** [s.startswith(prefix)]. *)
Fixpoint startswith (s prefix : string) {struct prefix} : bool :=
  match prefix, s with
  | EmptyString, _ => true
  | String a prefix', String b s' => Ascii.eqb a b && startswith s' prefix'
  | String _ _, EmptyString => false
  end.

(** [s.endswith(suffix)], by the lengths. *)
Definition endswith (s suffix : string) : bool :=
  let n := String.length s in
  let m := String.length suffix in
  (m <=? n)%nat && String.eqb (substring (n - m) m s) suffix.

(** [s.split(sep)[0]] for a separator that is not empty: what stands before
    the first occurrence of [sep], the whole of [s] when it has none. *)
Fixpoint before (sep s : string) : string :=
  if startswith s sep then EmptyString
  else
    match s with
    | EmptyString => EmptyString
    | String c s' => String c (before sep s')
    end.

(** [sep in s]. *)
Fixpoint occurs (sep s : string) : bool :=
  startswith s sep
  || match s with
     | EmptyString => false
     | String _ s' => occurs sep s'
     end.

Definition strip_version (version : string) : string :=
  before "dev" (before "rc" (before "alpha" (before "beta" version))).

Section to_include_files.

(** [os.path.join] of two components and [os.path.basename]. *)
Variable join : string -> string -> string.
Variable basename : string -> string.

(** The two nested loops, [include_files] being their accumulator.  A data
    file is a pair of a destination directory and of source file names. *)
Definition to_include_files (data_files : list (string * list string))
  : list (string * string) :=
  fold_left
    (fun include_files '(dest_dir, fnames) =>
       fold_left
         (fun include_files source_fname =>
            let dest_fname := join dest_dir (basename source_fname) in
            include_files ++ [(source_fname, dest_fname)])
         fnames include_files)
    data_files [].

End to_include_files.

End Disthelpers.

(** The four words [strip_version] splits on, in its order. *)
Definition markers : list string := ["beta"; "alpha"; "rc"; "dev"]%string.

(** What stands before the first position at which one of the markers
    begins. *)
Fixpoint cut_at_marker (s : string) : string :=
  if existsb (Disthelpers.startswith s) markers then EmptyString
  else
    match s with
    | EmptyString => EmptyString
    | String c s' => String c (cut_at_marker s')
    end.

(** [os.path.join] and [os.path.basename] of POSIX, for concrete runs. *)
Definition demo_join (a b : string) : string :=
  if Disthelpers.startswith b "/" then b
  else if String.eqb a "" || Disthelpers.endswith a "/" then (a ++ b)%string
  else (a ++ "/" ++ b)%string.

Fixpoint demo_basename (p : string) : string :=
  match p with
  | EmptyString => EmptyString
  | String c p' =>
      if Disthelpers.occurs "/" p' then demo_basename p'
      else if Ascii.eqb c "/" then p' else p
  end.

(** The pair that [to_include_files] makes of a source file: the file, and
    its base name under the destination directory. *)
Definition include_of (join : string -> string -> string)
    (basename : string -> string) (dest_dir source_fname : string)
  : string * string :=
  (source_fname, join dest_dir (basename source_fname)).

(** ** The class [Distribution] *)

Module Distribution.

(** The exceptions [setup] can end with. *)
Inductive error := AssertionError | IOError | RuntimeError | ImportError.

(** The lists of module and file names are objects: the heap maps the
    reference of a list to its items, and [x += l] on a list extends the
    object in place. *)
Definition iadd (x : positive) (l : list string)
    (h : gmap positive (list string)) : gmap positive (list string) :=
  alter (fun items => items ++ l) x h.

Definition read (h : gmap positive (list string)) (x : positive)
  : list string :=
  from_option id [] (h !! x).

(** The class attributes: six lists, made once, when the class is. *)
Definition DEFAULT_EXCLUDES : positive := 1.
Definition DEFAULT_INCLUDES : positive := 2.
Definition DEFAULT_BIN_EXCLUDES : positive := 3.
Definition DEFAULT_BIN_INCLUDES : positive := 4.
Definition DEFAULT_BIN_PATH_INCLUDES : positive := 5.
Definition DEFAULT_BIN_PATH_EXCLUDES : positive := 6.

(** The heap when the class has just been made. *)
Definition class_heap : gmap positive (list string) :=
  <[DEFAULT_EXCLUDES :=
      ["Tkconstants"; "Tkinter"; "tcl"; "tk"; "wx"; "_imagingtk"; "curses";
       "PIL._imagingtk"; "ImageTk"; "PIL.ImageTk"; "FixTk"; "bsddb"; "email";
       "pywin.debugger"; "pywin.debugger.dbgcon"; "matplotlib"]%string]>
    (<[DEFAULT_INCLUDES := []]>
       (<[DEFAULT_BIN_EXCLUDES :=
            ["MSVCP90.dll"; "w9xpopen.exe"; "MSVCP80.dll";
             "MSVCR80.dll"]%string]>
          (<[DEFAULT_BIN_INCLUDES := []]>
             (<[DEFAULT_BIN_PATH_INCLUDES := []]>
                (<[DEFAULT_BIN_PATH_EXCLUDES := []]> ∅))))).

(** [cx_Freeze.Executable(script, base=, icon=, targetName=)]. *)
Record executable := Executable {
  exe_script : option string;
  exe_base : option string;
  exe_icon : option string;
  exe_targetName : option string
}.

(** The attributes of an instance.  The six lists are held by reference;
    [data_files] and [executables] are lists made by [__init__] for the
    instance alone.  [script] is set by [setup] only. *)
Record t := mk {
  name : option string;
  version : option string;
  description : option string;
  script : option string;
  target_name : option string;
  _target_dir : option string;
  icon : option string;
  data_files : list (string * list string);
  includes : positive;
  excludes : positive;
  bin_includes : positive;
  bin_excludes : positive;
  bin_path_includes : positive;
  bin_path_excludes : positive;
  vs2008 : bool;
  _py2exe_is_loaded : bool;
  _pyqt4_added : bool;
  _pyside_added : bool;
  executables : list executable
}.

Definition __init__ (os_name : string) : t :=
  mk None None None None None None None []
    DEFAULT_INCLUDES DEFAULT_EXCLUDES DEFAULT_BIN_INCLUDES
    DEFAULT_BIN_EXCLUDES DEFAULT_BIN_PATH_INCLUDES DEFAULT_BIN_PATH_EXCLUDES
    (String.eqb os_name "nt") false false false [].

(** The property [target_dir]. *)
Definition target_dir (self : t) : string :=
  match _target_dir self with
  | None => "dist"
  | Some dirname => dirname
  end.

Definition add_data_file (self : t) (filename destdir : string) : t :=
  mk (name self) (version self) (description self) (script self)
    (target_name self) (_target_dir self) (icon self)
    (data_files self ++ [(destdir, [filename])])
    (includes self) (excludes self) (bin_includes self) (bin_excludes self)
    (bin_path_includes self) (bin_path_excludes self) (vs2008 self)
    (_py2exe_is_loaded self) (_pyqt4_added self) (_pyside_added self)
    (executables self).

(** The arguments of [setup]; [None] is the default of the optional ones. *)
Record setup_args := {
  a_name : string;
  a_version : string;
  a_description : string;
  a_script : string;
  a_target_name : option string;
  a_target_dir : option string;
  a_icon : option string;
  a_data_files : option (list (string * list string));
  a_includes : option (list string);
  a_excludes : option (list string);
  a_bin_includes : option (list string);
  a_bin_excludes : option (list string);
  a_bin_path_includes : option (list string);
  a_bin_path_excludes : option (list string);
  a_vs2008 : option bool
}.

(** [if l is not None: x += l]. *)
Definition iadd_opt (x : positive) (l : option (list string))
    (h : gmap positive (list string)) : gmap positive (list string) :=
  match l with
  | Some l => iadd x l h
  | None => h
  end.

Section setup.

(** [os.name], [os.path.isfile], what [create_vs2008_data_files()] returns
    or raises, and whether [cx_Freeze] can be imported. *)
Variable os_name : string.
Variable isfile : string -> bool.
Variable create_vs2008_data_files : error + list (string * list string).
Variable cx_Freeze : bool.

(** [setup] returns the state of the instance and of the heap when it
    ends, and the exception it ends with, if any. *)
Definition setup (self : t) (h : gmap positive (list string))
    (a : setup_args) : t * gmap positive (list string) * option error :=
  let version :=
    if String.eqb os_name "nt" then Disthelpers.strip_version (a_version a)
    else a_version a in
  if negb (isfile (a_script a)) then
    (mk (Some (a_name a)) (Some version) (Some (a_description a))
       (script self) (target_name self) (_target_dir self) (icon self)
       (data_files self)
       (includes self) (excludes self) (bin_includes self)
       (bin_excludes self) (bin_path_includes self) (bin_path_excludes self)
       (vs2008 self) (_py2exe_is_loaded self) (_pyqt4_added self)
       (_pyside_added self) (executables self),
     h, Some AssertionError)
  else
    let data_files :=
      match a_data_files a with
      | Some l => data_files self ++ l
      | None => data_files self
      end in
    let h :=
      iadd_opt (bin_path_excludes self) (a_bin_path_excludes a)
        (iadd_opt (bin_path_includes self) (a_bin_path_includes a)
           (iadd_opt (bin_excludes self) (a_bin_excludes a)
              (iadd_opt (bin_includes self) (a_bin_includes a)
                 (iadd_opt (excludes self) (a_excludes a)
                    (iadd_opt (includes self) (a_includes a) h))))) in
    let vs2008 :=
      match a_vs2008 a with
      | Some b => b
      | None => vs2008 self
      end in
    let state data_files executables :=
      mk (Some (a_name a)) (Some version) (Some (a_description a))
        (Some (a_script a)) (a_target_name a) (a_target_dir a) (a_icon a)
        data_files
        (includes self) (excludes self) (bin_includes self)
        (bin_excludes self) (bin_path_includes self) (bin_path_excludes self)
        vs2008 (_py2exe_is_loaded self) (_pyqt4_added self)
        (_pyside_added self) executables in
    match (if vs2008 then create_vs2008_data_files else inr []) with
    | inl e => (state data_files (executables self), h, Some e)
    | inr more =>
        let data_files := data_files ++ more in
        if cx_Freeze then
          let base :=
            if Disthelpers.endswith (a_script a) ".pyw"
               && String.eqb os_name "nt"
            then Some "win32gui"%string else None in
          (state data_files
             (executables self
              ++ [Executable (Some (a_script a)) base (a_icon a)
                    (a_target_name a)]),
           h, None)
        else (state data_files (executables self), h, Some ImportError)
    end.

End setup.

End Distribution.

(** Arguments of [setup] that give a script and two modules to exclude. *)
Definition demo_setup_args : Distribution.setup_args :=
  {| Distribution.a_name := "app";
     Distribution.a_version := "1.0beta2";
     Distribution.a_description := "An application";
     Distribution.a_script := "/etc/passwd";
     Distribution.a_target_name := None;
     Distribution.a_target_dir := None;
     Distribution.a_icon := None;
     Distribution.a_data_files := None;
     Distribution.a_includes := None;
     Distribution.a_excludes := Some ["numpy"; "scipy"]%string;
     Distribution.a_bin_includes := None;
     Distribution.a_bin_excludes := None;
     Distribution.a_bin_path_includes := None;
     Distribution.a_bin_path_excludes := None;
     Distribution.a_vs2008 := None |}.

(** ** Several paths from text ([FilesOpenItem.from_string]) *)

Module FilesOpenItemText.

(** [for path in value]: a list or a tuple gives its items, a string its
    characters; the numbers and [None] cannot be iterated. *)
Definition iterate (value : value) : result (list Py.value) :=
  match value with
  | VList l | VTuple l => Returns l
  | VStr s =>
      Returns (map (fun c => VStr (String c EmptyString))
                 (list_ascii_of_string s))
  | VUnicode s =>
      Returns (map (fun c => VUnicode (String c EmptyString))
                 (list_ascii_of_string s))
  | _ => Raises TypeError
  end.

Section from_string.

(** The builtin [eval], and [guidata.utils.add_extension] applied to this
    item, each returning or raising. *)
Variable eval : string -> result value.
Variable add_extension : value -> result value.

(** The list comprehension [[add_extension(self, path) for path in value]],
    [paths] being the list built so far. *)
Definition add_extensions (value : list Py.value) : result (list Py.value) :=
  fold_left
    (fun paths path =>
       bind paths
         (fun done =>
            bind (add_extension path) (fun p => Returns (done ++ [p]))))
    value (Returns []).

Definition from_string (value : string) : result (list Py.value) :=
  let value := NumericTypeItem.unicode value in
  bind
    (if Disthelpers.endswith value "']" then eval value
     else Returns (VList [VUnicode value]))
    (fun value => bind (iterate value) add_extensions).

End from_string.

End FilesOpenItemText.

(** * Properties *)

(** ** Numeric range check ([NumericTypeItem.check_value]) *)

Section NumericCheck.

Import NumericTypeItem.

Lemma check_value_unfold (self : NumericTypeItem.t) (v : value) :
  check_value self v =
    match as_instance v (type self) with
    | None => false
    | Some x =>
        negb (flag (nonzero self) && py_eq x (NInt 0))
        && negb (match min self with Some m => py_lt x m | None => false end)
        && negb (match max self with Some m => py_gt x m | None => false end)
    end.
Proof.
  unfold check_value.
  destruct (as_instance v (type self)) as [x|]; [|reflexivity].
  destruct (flag (nonzero self) && py_eq x (NInt 0)); [reflexivity|].
  destruct (min self) as [m|]; [destruct (py_lt x m); [reflexivity|]|];
    destruct (max self) as [m'|]; try destruct (py_gt x m'); reflexivity.
Qed.


End NumericCheck.



(** ** Parity check ([IntItem.check_value]) *)

(** The check of an integer item is the numeric check and, when [even] is
    set, the agreement of the flag with [is_even]. *)
Lemma IntItem_check_value_unfold (self : IntItem.t) (v : value) :
  IntItem.check_value self v =
    NumericTypeItem.check_value (IntItem.base self) v
    && match IntItem.even self, as_instance v TInt with
       | Some even, Some (NInt x) => Bool.eqb even (IntItem.is_even x)
       | _, _ => true
       end.
Proof.
  unfold IntItem.check_value.
  destruct (NumericTypeItem.check_value (IntItem.base self) v); simpl;
    [|reflexivity].
  destruct (IntItem.even self) as [[]|]; [| |reflexivity];
    destruct (as_instance v TInt) as [[x|f]|]; try reflexivity;
    destruct (IntItem.is_even x); reflexivity.
Qed.

(** Wherever [is_even] is the parity of the integer, the check is the numeric
    check and the parity the flag asks for; without the flag it is the numeric
    check. *)
Lemma IntItem_check_value_where_exact (self : IntItem.t) (v : Z) :
  IntItem.is_even v = Z.even v ->
  IntItem.check_value self (VInt v) =
    NumericTypeItem.check_value (IntItem.base self) (VInt v)
    && match IntItem.even self with
       | Some even => Bool.eqb even (Z.even v)
       | None => true
       end.
Proof.
  intros Hexact. rewrite IntItem_check_value_unfold. simpl.
  rewrite Hexact. destruct (IntItem.even self); reflexivity.
Qed.

(** [is_even] is the parity on every integer from -4096 to 4096, and on the
    4097 integers up to 2^53. *)
Lemma is_even_small :
  forallb (fun v => Bool.eqb (IntItem.is_even v) (Z.even v))
    (seqZ (-4096) 8193) = true.
Proof. vm_compute. reflexivity. Qed.

Lemma is_even_up_to_2_53 :
  forallb (fun v => Bool.eqb (IntItem.is_even v) (Z.even v))
    (seqZ (2 ^ 53 - 4096) 4097) = true.
Proof. vm_compute. reflexivity. Qed.

(** Beyond 2^53 it fails in both directions: 2^54 + 2 is even, and [is_even]
    is false of it. *)
Lemma is_even_large_even :
  Z.even (2 ^ 54 + 2) = true /\ IntItem.is_even (2 ^ 54 + 2) = false.
Proof. split; vm_compute; reflexivity. Qed.

(** C1 (failing input).  2^53 + 1 is an odd [int], and [is_even] holds of it:
    the float quotient is computed from the double nearest to the integer,
    which is 2^53.  An item with [even=False] rejects it and an item with
    [even=True] accepts it, against the parity the docstring asks for. *)
Theorem IntItem_check_value_large_odd :
  int_range large_odd = true
  /\ Z.odd large_odd = true
  /\ IntItem.is_even large_odd = true
  /\ (forall label default help,
         IntItem.check_value
           (IntItem.__init__ label default None None None (Some false) help)
           (VInt large_odd) = false)
  /\ (forall label default help,
         IntItem.check_value
           (IntItem.__init__ label default None None None (Some true) help)
           (VInt large_odd) = true).
Proof. repeat split; intros; vm_compute; reflexivity. Qed.

(** ** Conversion from text ([NumericTypeItem.from_string]) *)

Section FromString.

Import NumericTypeItem.

(** The characters of the grammar are those of the group of the pattern. *)
Lemma grammar_char_in_group (c : ascii) : grammar_char c = in_group c.
Proof. destruct c as [[] [] [] [] [] [] [] []]; reflexivity. Qed.

Lemma forallb_grammar_char (l : list ascii) :
  forallb grammar_char l = forallb in_group l.
Proof.
  induction l as [|c l IH]; [reflexivity|].
  simpl. rewrite IH, grammar_char_in_group. reflexivity.
Qed.

Lemma spec_grammar_cons (c : ascii) (s : string) :
  spec_grammar (String c s) = in_group c && all_group s.
Proof.
  unfold spec_grammar, all_group.
  rewrite forallb_grammar_char. reflexivity.
Qed.

Lemma all_group_cons (c : ascii) (s : string) :
  all_group (String c s) = in_group c && all_group s.
Proof. reflexivity. Qed.

Lemma in_group_LF : in_group LF = false.
Proof. reflexivity. Qed.

(** After the longest run of group characters comes the end, or the final
    newline, exactly when the text is such a run, with or without a newline
    after it. *)
Lemma at_dollar_skip_group (r : string) :
  at_dollar (skip_group r) = true <->
  all_group r = true
  \/ exists t, r = (t ++ String LF EmptyString)%string /\ all_group t = true.
Proof.
  induction r as [|c r IH].
  - simpl. split; [left|]; reflexivity.
  - simpl skip_group. rewrite all_group_cons.
    destruct (in_group c) eqn:Hc; simpl andb.
    + rewrite IH. split.
      * intros [H|(t & -> & Ht)]; [left; exact H|].
        right. exists (String c t). split; [reflexivity|].
        rewrite all_group_cons, Hc. exact Ht.
      * intros [H|(t & Heq & Ht)]; [left; exact H|].
        destruct t as [|c' t]; simpl in Heq.
        -- injection Heq as -> _. rewrite in_group_LF in Hc. discriminate.
        -- injection Heq as -> ->. right. exists t. split; [reflexivity|].
           rewrite all_group_cons in Ht.
           apply andb_true_iff in Ht. apply Ht.
    + split.
      * destruct r as [|c' r]; [|discriminate].
        simpl. intros H. apply Ascii.eqb_eq in H as ->.
        right. exists EmptyString. split; reflexivity.
      * intros [H|(t & Heq & Ht)]; [discriminate|].
        destruct t as [|c' t]; simpl in Heq.
        -- injection Heq as -> ->. reflexivity.
        -- injection Heq as -> _. rewrite all_group_cons, Hc in Ht.
           discriminate.
Qed.

(** The pattern matches the texts of the grammar and those texts followed by
    one newline. *)
Lemma re_match_spec (text : string) :
  re_match text = true <->
  spec_grammar text = true
  \/ exists t,
       text = (t ++ String LF EmptyString)%string /\ spec_grammar t = true.
Proof.
  destruct text as [|c r].
  - simpl. split; [discriminate|].
    intros [H|(t & Heq & Ht)]; [discriminate|].
    destruct t; [discriminate|]. discriminate.
  - unfold re_match. rewrite andb_true_iff, at_dollar_skip_group.
    rewrite spec_grammar_cons, andb_true_iff. split.
    + intros [Hc [H|(t & -> & Ht)]]; [left; split; assumption|].
      right. exists (String c t). split; [reflexivity|].
      rewrite spec_grammar_cons, Hc. exact Ht.
    + intros [[Hc H]|(t & Heq & Ht)]; [split; [|left]; assumption|].
      destruct t as [|c' t]; [discriminate|].
      simpl in Heq. injection Heq as -> ->.
      rewrite spec_grammar_cons in Ht. apply andb_true_iff in Ht as [Hc Ht].
      split; [exact Hc|]. right. exists t. split; [reflexivity|exact Ht].
Qed.

Variable eval : string -> result value.
Variable call : pytype -> value -> result value.

Lemma from_string_unfold (self : t) (text : string) :
  from_string eval call self text =
    if re_match text then
      match eval text with
      | Returns x =>
          match call (type self) x with
          | Returns r => Returns r
          | Raises _ => Returns VNone
          end
      | Raises _ => Returns VNone
      end
    else Returns VNone.
Proof.
  unfold from_string, unicode, bind.
  destruct (re_match text); [|reflexivity].
  destruct (eval text); reflexivity.
Qed.

End FromString.




(** ** Several files to open ([FilesOpenItem.check_value]) *)

(** The loop computes the conjunction of its start value and of the test of
    every path. *)
Lemma allexist_fold (exists_ isfile : string -> bool) (value : list string)
    (allexist : bool) :
  fold_left (fun allexist path => allexist && exists_ path && isfile path)
    value allexist
  = allexist && forallb (fun path => exists_ path && isfile path) value.
Proof.
  revert allexist. induction value as [|path value IH]; intros allexist.
  - simpl. rewrite andb_true_r. reflexivity.
  - simpl. rewrite IH, <- !andb_assoc. reflexivity.
Qed.

(** C5.  [check_value] is true iff every path of the sequence exists and is a
    regular file; it is true of the empty sequence, and false of the one path
    [/nonexistent], which does not exist. *)
Theorem FilesOpenItem_check_value_spec
    (exists_ isfile : string -> bool)
    (Hnone : exists_ "/nonexistent"%string = false) :
  (forall value : list string,
      FilesOpenItem.check_value exists_ isfile value = true <->
      forall path, In path value ->
                   exists_ path = true /\ isfile path = true)
  /\ FilesOpenItem.check_value exists_ isfile [] = true
  /\ FilesOpenItem.check_value exists_ isfile ["/nonexistent"%string] = false.
Proof.
  unfold FilesOpenItem.check_value. split; [|split].
  - intros value. rewrite allexist_fold. simpl. rewrite forallb_forall.
    split; intros H path Hin; specialize (H path Hin).
    + apply andb_true_iff. exact H.
    + apply andb_true_iff in H. exact H.
  - reflexivity.
  - simpl. rewrite Hnone. reflexivity.
Qed.

(** [FilesOpenItem_check_value_spec] on a file system with the directory
    [/etc] and the file [/etc/passwd]. *)
Lemma FilesOpenItem_check_value_spec_witness :
  FilesOpenItem.check_value demo_exists demo_isfile
    ["/nonexistent"%string] = false.
Proof.
  apply (FilesOpenItem_check_value_spec demo_exists demo_isfile eq_refl).
Defined.

(** ** Text items ([StringItem.check_value]) *)

(** C9.  [check_value] tests no type: on any value it is true when [notempty]
    is [None], and it is false exactly when [notempty] is true and the value
    is false in a condition.  So a non-empty value that is no string passes
    with [notempty] set, and an empty one of any type fails. *)
Theorem StringItem_check_value_spec :
  (forall (self : StringItem.t) (v : value),
      (StringItem.notempty self = None ->
       StringItem.check_value self v = true)
      /\ (StringItem.check_value self v = false <->
          StringItem.notempty self = Some true /\ truth v = false))
  /\ (forall label default help,
         let self := StringItem.__init__ label default (Some true) help in
         StringItem.check_value self (VInt 5) = true
         /\ StringItem.check_value self (VList [VNone]) = true
         /\ StringItem.check_value self (VUnicode "") = false
         /\ StringItem.check_value self (VInt 0) = false
         /\ StringItem.check_value self VNone = false
         /\ StringItem.check_value self (VList []) = false).
Proof.
  split.
  - intros self v. unfold StringItem.check_value.
    destruct (StringItem.notempty self) as [[]|]; simpl;
      destruct (truth v); simpl; repeat split;
      intros; try congruence; try reflexivity;
      match goal with H : _ /\ _ |- _ => destruct H; congruence end.
  - intros. repeat split.
Qed.

(** ** Buttons ([ButtonItem.serialize], [ButtonItem.deserialize]) *)

(** C8.  [serialize] leaves the writer as it is and [deserialize] leaves the
    reader and the instance as they are, so the value the instance holds for
    the item is the same before and after, and what [serialize] wrote (nothing)
    does not depend on it. *)
Theorem ButtonItem_serialize_deserialize_noop :
  forall (Inst : Type) (get_value : ButtonItem.t -> Inst -> value)
         (self : ButtonItem.t) (instance : Inst)
         (writer : Stream.writer) (reader : Stream.reader),
    ButtonItem.serialize self instance writer = (instance, writer)
    /\ ButtonItem.deserialize self instance reader = (instance, reader)
    /\ get_value self (fst (ButtonItem.deserialize self instance reader))
       = get_value self instance
    /\ (forall instance' : Inst,
           snd (ButtonItem.serialize self instance' writer)
           = snd (ButtonItem.serialize self instance writer)).
Proof. intros. repeat split. Qed.

(** ** Choice normalization ([ChoiceItem._normalize_choice]) *)

Section Normalize.

Import ChoiceItem.

Variable utf8_to_unicode : string -> string.

Lemma normalize_fold (idx : Z) (choices : list choice) (acc : list entry) :
  fold_left
    (fun _choices_data '(idx, choice) =>
       _choices_data ++ [_normalize_choice utf8_to_unicode idx choice])
    (enumerate idx choices) acc
  = acc ++ map (fun '(idx, choice) =>
                  _normalize_choice utf8_to_unicode idx choice)
             (enumerate idx choices).
Proof.
  revert idx acc. induction choices as [|c choices IH]; intros idx acc.
  - simpl. rewrite app_nil_r. reflexivity.
  - simpl. rewrite IH, <- app_assoc. reflexivity.
Qed.

Lemma normalize_choices_map (choices : list choice) :
  normalize_choices utf8_to_unicode choices
  = map (fun '(idx, choice) => _normalize_choice utf8_to_unicode idx choice)
      (enumerate 0 choices).
Proof. unfold normalize_choices. rewrite normalize_fold. reflexivity. Qed.

Lemma normalize_choices_cons (c : choice) (choices : list choice) :
  exists rest,
    normalize_choices utf8_to_unicode (c :: choices)
    = _normalize_choice utf8_to_unicode 0 c :: rest.
Proof. rewrite normalize_choices_map. simpl. eauto. Qed.

Lemma enumerate_lookup {A} (idx : Z) (l : list A) (i : nat) :
  enumerate idx l !! i = (fun x => (idx + Z.of_nat i, x)) <$> l !! i.
Proof.
  revert idx i. induction l as [|x l IH]; intros idx i.
  - reflexivity.
  - destruct i as [|i]; simpl.
    + rewrite Z.add_0_r. reflexivity.
    + rewrite IH. destruct (l !! i); simpl; [|reflexivity].
      do 2 f_equal. lia.
Qed.

Lemma enumerate_length {A} (idx : Z) (l : list A) :
  length (enumerate idx l) = length l.
Proof.
  revert idx. induction l as [|x l IH]; intros idx; simpl; [|rewrite IH];
    reflexivity.
Qed.

End Normalize.

(** C7.  Normalization keeps the length and the order of the sequence.  The
    entry at position [i] becomes a triple whose image is [None]: a
    [(key, label)] tuple keeps its key, a label alone gets the key [i]; a
    byte-string label is decoded, a text label is kept.  The labels ["X"] and
    ["Y"] normalize to [(0, "X", None)] and [(1, "Y", None)], decoding
    keeping these ASCII labels. *)
Theorem ChoiceItem_normalize_choices_spec
    (utf8_to_unicode : string -> string)
    (HX : utf8_to_unicode "X"%string = "X"%string)
    (HY : utf8_to_unicode "Y"%string = "Y"%string) :
  (forall choices,
      length (ChoiceItem.normalize_choices utf8_to_unicode choices)
      = length choices)
  /\ (forall choices (i : nat) c,
         choices !! i = Some c ->
         ChoiceItem.normalize_choices utf8_to_unicode choices !! i
         = Some (ChoiceItem._normalize_choice utf8_to_unicode (Z.of_nat i) c))
  /\ (forall idx key s,
         ChoiceItem._normalize_choice utf8_to_unicode idx
           (ChoiceItem.Tuple key (Unicode s)) = (key, Unicode s, None)
         /\ ChoiceItem._normalize_choice utf8_to_unicode idx
              (ChoiceItem.Tuple key (Str s))
            = (key, Unicode (utf8_to_unicode s), None)
         /\ ChoiceItem._normalize_choice utf8_to_unicode idx
              (ChoiceItem.Label (Unicode s)) = (KInt idx, Unicode s, None)
         /\ ChoiceItem._normalize_choice utf8_to_unicode idx
              (ChoiceItem.Label (Str s))
            = (KInt idx, Unicode (utf8_to_unicode s), None))
  /\ ChoiceItem.normalize_choices utf8_to_unicode
       [ChoiceItem.Label (Str "X"); ChoiceItem.Label (Str "Y")]
     = [(KInt 0, Unicode "X", None); (KInt 1, Unicode "Y", None)]
  /\ ChoiceItem.normalize_choices utf8_to_unicode
       [ChoiceItem.Label (Unicode "X"); ChoiceItem.Label (Unicode "Y")]
     = [(KInt 0, Unicode "X", None); (KInt 1, Unicode "Y", None)].
Proof.
  split; [|split; [|split; [|split]]].
  - intros choices. rewrite normalize_choices_map, length_map.
    apply enumerate_length.
  - intros choices i c Hc.
    rewrite normalize_choices_map, list_lookup_fmap, enumerate_lookup, Hc.
    reflexivity.
  - intros. repeat split.
  - unfold ChoiceItem.normalize_choices, ChoiceItem._normalize_choice. simpl.
    rewrite HX, HY. reflexivity.
  - reflexivity.
Qed.

(** [ChoiceItem_normalize_choices_spec] with text held as UTF-8 bytes. *)
Lemma ChoiceItem_normalize_choices_spec_witness :
  ChoiceItem.normalize_choices demo_utf8_to_unicode
    [ChoiceItem.Label (Str "X"); ChoiceItem.Label (Str "Y")]
  = [(KInt 0, Unicode "X", None); (KInt 1, Unicode "Y", None)].
Proof.
  apply (ChoiceItem_normalize_choices_spec demo_utf8_to_unicode
           eq_refl eq_refl).
Defined.

(** ** Default of a choice item ([ChoiceItem.__init__]) *)

(** C6.  With [default=FirstChoice], a non-empty sequence of choices gives an
    item whose default is the key of the first normalized entry, and a
    function gives an item whose default is [None]; each item holds its
    choices in the data group.  (An empty sequence raises [IndexError]: no
    item is built.)  For [("a", "Alpha"), ("b", "Beta")] the default is
    ["a"]. *)
Theorem ChoiceItem_init_default :
  forall (utf8_to_unicode : string -> string) (label help : string),
    (forall c choices,
        exists item,
          ChoiceItem.__init__ utf8_to_unicode label
            (ChoiceItem.Sequence (c :: choices)) ChoiceItem.FirstChoice help
          = Returns item
          /\ head (ChoiceItem.normalize_choices utf8_to_unicode (c :: choices))
             = Some (ChoiceItem._normalize_choice utf8_to_unicode 0 c)
          /\ DataItem.default item
             = CKey (ChoiceItem._normalize_choice utf8_to_unicode 0 c).1.1
          /\ get_prop item "data" "choices"
             = Some (PChoices
                       (ChoiceItem.normalize_choices utf8_to_unicode
                          (c :: choices))))
    /\ (forall f,
           exists item,
             ChoiceItem.__init__ utf8_to_unicode label (ChoiceItem.Callable f)
               ChoiceItem.FirstChoice help
             = Returns item
             /\ DataItem.default item = CNone
             /\ get_prop item "data" "choices" = Some (PItemProperty f))
    /\ ChoiceItem.__init__ utf8_to_unicode label (ChoiceItem.Sequence [])
         ChoiceItem.FirstChoice help
       = Raises IndexError
    /\ (exists item,
           ChoiceItem.__init__ utf8_to_unicode label
             (ChoiceItem.Sequence
                [ChoiceItem.Tuple (KStr "a") (Str "Alpha");
                 ChoiceItem.Tuple (KStr "b") (Str "Beta")])
             ChoiceItem.FirstChoice help
           = Returns item
           /\ DataItem.default item = CKey (KStr "a")).
Proof.
  intros utf8_to_unicode label help. split; [|split; [|split]].
  - intros c choices.
    destruct (normalize_choices_cons utf8_to_unicode c choices) as [rest Hn].
    unfold ChoiceItem.__init__. rewrite Hn.
    destruct (ChoiceItem._normalize_choice utf8_to_unicode 0 c)
      as [[key lbl] img] eqn:Hc.
    simpl. eexists. split; [reflexivity|]. repeat split.
  - intros f. eexists. split; [reflexivity|]. repeat split.
  - reflexivity.
  - eexists. split; reflexivity.
Qed.

(** ** The property store *)

Section PropertyStore.

Context {V : Type}.

Lemma get_set_prop (self : DataItem.t V) (realm name realm' name' : string)
    (v : prop V) :
  get_prop (set_prop self realm name v) realm' name'
  = if decide (realm = realm' /\ name = name') then Some v
    else get_prop self realm' name'.
Proof.
  unfold get_prop, set_prop. simpl.
  destruct (decide (realm = realm')) as [<-|Hr].
  - rewrite lookup_insert_eq. simpl.
    destruct (decide (name = name')) as [<-|Hn].
    + rewrite lookup_insert_eq.
      destruct (decide _) as [_|H]; [reflexivity|]. destruct H; split;
        reflexivity.
    + rewrite lookup_insert_ne by exact Hn.
      destruct (decide _) as [[_ H]|_]; [contradiction|].
      destruct (_props self !! realm); reflexivity.
  - rewrite lookup_insert_ne by exact Hr.
    destruct (decide _) as [[H _]|_]; [contradiction|]. reflexivity.
Qed.

Lemma get_set_prop_eq (self : DataItem.t V) (realm name : string)
    (v : prop V) :
  get_prop (set_prop self realm name v) realm name = Some v.
Proof.
  rewrite get_set_prop. destruct (decide _) as [_|H]; [reflexivity|].
  destruct H; split; reflexivity.
Qed.

Lemma get_set_prop_ne (self : DataItem.t V) (realm name realm' name' : string)
    (v : prop V) :
  (realm, name) <> (realm', name') ->
  get_prop (set_prop self realm name v) realm' name' = get_prop self realm' name'.
Proof.
  intros Hne. rewrite get_set_prop.
  destruct (decide _) as [[-> ->]|_]; [contradiction|reflexivity].
Qed.

End PropertyStore.

(** ** The mask encoding of a multiple choice *)

Section Mask.

Import MultipleChoiceItem.

Context {Inst : Type}.
Variable get_value : t -> Inst -> list key.
Variable __set__ : t -> Inst -> list key -> Inst.
Variable utf8_to_unicode : string -> string.

(** The item that [__init__] builds from a sequence of choices. *)
Lemma init_static (label : string) (choices : list ChoiceItem.choice)
    (default : list key) (help : string) :
  __init__ utf8_to_unicode label (ChoiceItem.Sequence choices) default help
  = Returns
      (set_prop
         (set_prop (DataItem.__init__ label (CKeys default) help)
            "data" "choices"
            (PChoices (ChoiceItem.normalize_choices utf8_to_unicode choices)))
         "display" "shape" (PShape 1 (-1))).
Proof. reflexivity. Qed.

Lemma serialize_fold (value : list key) (choices : list entry)
    (acc : list Py.value) :
  fold_left
    (fun seq '(key, _label, _img) => seq ++ [VBool (key_in key value)])
    choices acc
  = acc ++ mask value (keys choices).
Proof.
  revert acc. induction choices as [|[[key lbl] img] choices IH]; intros acc.
  - simpl. rewrite app_nil_r. reflexivity.
  - simpl. rewrite IH, <- app_assoc. reflexivity.
Qed.

Lemma deserialize_fold (value : list key) (all suf pre : list entry)
    (acc : list key) :
  all = pre ++ suf ->
  fold_left
    (fun acc '(idx, flag) =>
       bind acc
         (fun value =>
            if truth flag then
              match all !! Z.to_nat idx with
              | Some (key, _, _) => Returns (value ++ [key])
              | None => Raises IndexError
              end
            else Returns value))
    (ChoiceItem.enumerate (Z.of_nat (length pre)) (mask value (keys suf)))
    (Returns acc)
  = Returns (acc ++ selected value (keys suf)).
Proof.
  unfold mask, keys, selected.
  revert pre acc. induction suf as [|[[key lbl] img] suf IH];
    intros pre acc Hall.
  - simpl. rewrite app_nil_r. reflexivity.
  - assert (Hlook : all !! length pre = Some (key, lbl, img))
      by (rewrite Hall; apply list_lookup_middle; reflexivity).
    assert (Hlen : Z.of_nat (length pre) + 1
                   = Z.of_nat (length (pre ++ [(key, lbl, img)])))
      by (rewrite length_app; simpl; lia).
    assert (Hall' : all = (pre ++ [(key, lbl, img)]) ++ suf)
      by (rewrite Hall, <- app_assoc; reflexivity).
    cbn [map ChoiceItem.enumerate fold_left List.filter fst snd].
    rewrite Hlen.
    destruct (bool_decide (key ∈ value)) eqn:Hk; cbn [bind truth].
    + rewrite Nat2Z.id, Hlook, (IH _ _ Hall'), <- app_assoc. reflexivity.
    + rewrite (IH _ _ Hall'). reflexivity.
Qed.

End Mask.

Section RoundTrip.

Import MultipleChoiceItem.

Context {Inst : Type}.
Variable get_value : t -> Inst -> list key.
Variable __set__ : t -> Inst -> list key -> Inst.

Lemma choices_of_static (self : DataItem.t choice_value) (l : list entry)
    (shape : prop choice_value) (value : list key) :
  choices_of
    (set_prop (set_prop self "data" "choices" (PChoices l))
       "display" "shape" shape) value
  = Returns l.
Proof.
  unfold choices_of, get_prop_value.
  rewrite get_set_prop_ne by discriminate.
  rewrite get_set_prop_eq. reflexivity.
Qed.

Lemma serialize_static (self : DataItem.t choice_value) (l : list entry)
    (shape : prop choice_value) (instance : Inst) (writer : Stream.writer) :
  let item :=
    set_prop (set_prop self "data" "choices" (PChoices l))
      "display" "shape" shape in
  serialize get_value item instance writer
  = Returns
      (writer ++ [Stream.Sequence (mask (get_value item instance) (keys l))]).
Proof.
  intros item. unfold serialize, item. rewrite choices_of_static.
  cbn [bind]. rewrite serialize_fold. reflexivity.
Qed.

Lemma deserialize_static (self : DataItem.t choice_value) (l : list entry)
    (shape : prop choice_value) (value : list key) (fresh : Inst)
    (rest : Stream.reader) :
  let item :=
    set_prop (set_prop self "data" "choices" (PChoices l))
      "display" "shape" shape in
  deserialize get_value __set__ item fresh
    (Stream.Sequence (mask value (keys l)) :: rest)
  = Returns (__set__ item fresh (selected value (keys l)), rest).
Proof.
  intros item. unfold deserialize, item. cbn [Stream.read_sequence bind].
  rewrite choices_of_static. cbn [bind].
  pose proof (deserialize_fold value l l [] [] eq_refl) as Hfold.
  cbn [length] in Hfold. change (Z.of_nat 0) with 0 in Hfold.
  rewrite Hfold. reflexivity.
Qed.

End RoundTrip.

Lemma elem_of_selected (value ks : list key) (k : key) :
  k ∈ selected value ks <-> k ∈ ks /\ k ∈ value.
Proof.
  unfold selected. rewrite !list_elem_of_In, filter_In, bool_decide_eq_true.
  rewrite list_elem_of_In. reflexivity.
Qed.

Lemma mask_lookup (value ks : list key) (i : nat) (k : key) :
  ks !! i = Some k -> mask value ks !! i = Some (VBool (bool_decide (k ∈ value))).
Proof. intros H. unfold mask. rewrite list_lookup_fmap, H. reflexivity. Qed.

(** C4.  For an item built from a sequence of choices, [serialize] appends to
    the writer one sequence, which holds one boolean per choice, in the order
    of the choices, true iff the key of the choice is in the value the
    instance holds.  [deserialize] on that sequence gives the fresh instance
    the keys of the choices that are in that value, in the order of the
    choices: the same keys as the value when the value holds keys of the
    choices only.  With five labels as choices, the selection of the keys 1
    and 3 comes back as the keys 1 and 3, and the empty selection is written
    as five [False] and comes back empty. *)
Theorem MultipleChoiceItem_serialize_roundtrip
    (Inst : Type)
    (get_value : MultipleChoiceItem.t -> Inst -> list key)
    (__set__ : MultipleChoiceItem.t -> Inst -> list key -> Inst)
    (Hget_set : forall self instance value,
        get_value self (__set__ self instance value) = value)
    (utf8_to_unicode : string -> string) :
  (forall label choices default help,
      exists item,
        MultipleChoiceItem.__init__ utf8_to_unicode label
          (ChoiceItem.Sequence choices) default help = Returns item
        /\ forall instance writer fresh rest,
            let value := get_value item instance in
            let ks := keys (ChoiceItem.normalize_choices utf8_to_unicode choices) in
            let instance' := __set__ item fresh (selected value ks) in
            MultipleChoiceItem.serialize get_value item instance writer
            = Returns (writer ++ [Stream.Sequence (mask value ks)])
            /\ length (mask value ks) = length choices
            /\ (forall (i : nat) k,
                   ks !! i = Some k ->
                   mask value ks !! i
                   = Some (VBool (bool_decide (k ∈ value))))
            /\ MultipleChoiceItem.deserialize get_value __set__ item fresh
                 (Stream.Sequence (mask value ks) :: rest)
               = Returns (instance', rest)
            /\ get_value item instance' = selected value ks
            /\ (forall k, k ∈ get_value item instance' <-> k ∈ ks /\ k ∈ value)
            /\ ((forall k, k ∈ value -> k ∈ ks) ->
                forall k, k ∈ get_value item instance' <-> k ∈ value))
  /\ (forall label l0 l1 l2 l3 l4 default help,
         exists item,
           MultipleChoiceItem.__init__ utf8_to_unicode label
             (ChoiceItem.Sequence
                [ChoiceItem.Label l0; ChoiceItem.Label l1; ChoiceItem.Label l2;
                 ChoiceItem.Label l3; ChoiceItem.Label l4])
             default help = Returns item
           /\ forall instance fresh,
               let picked := __set__ item instance [KInt 1; KInt 3] in
               let cleared := __set__ item instance [] in
               MultipleChoiceItem.serialize get_value item picked []
               = Returns
                   [Stream.Sequence
                      [VBool false; VBool true; VBool false; VBool true;
                       VBool false]]
               /\ MultipleChoiceItem.deserialize get_value __set__ item fresh
                    [Stream.Sequence
                       [VBool false; VBool true; VBool false; VBool true;
                        VBool false]]
                  = Returns (__set__ item fresh [KInt 1; KInt 3], [])
               /\ get_value item (__set__ item fresh [KInt 1; KInt 3])
                  = [KInt 1; KInt 3]
               /\ MultipleChoiceItem.serialize get_value item cleared []
                  = Returns
                      [Stream.Sequence
                         [VBool false; VBool false; VBool false; VBool false;
                          VBool false]]
               /\ MultipleChoiceItem.deserialize get_value __set__ item fresh
                    [Stream.Sequence
                       [VBool false; VBool false; VBool false; VBool false;
                        VBool false]]
                  = Returns (__set__ item fresh [], [])
               /\ get_value item (__set__ item fresh []) = []).
Proof.
  split.
  - intros label choices default help. eexists. split; [apply init_static|].
    intros instance writer fresh rest value ks instance'.
    split; [apply serialize_static|].
    split.
    { unfold mask, ks, keys. rewrite !length_map.
      rewrite normalize_choices_map, length_map. apply enumerate_length. }
    split; [intros i k; apply mask_lookup|].
    split; [apply deserialize_static|].
    split; [apply Hget_set|].
    split.
    + intros k. unfold instance'. rewrite Hget_set. apply elem_of_selected.
    + intros Hsub k. unfold instance'. rewrite Hget_set, elem_of_selected.
      split; [intros [_ H]; exact H|]. intros H. split; [apply Hsub|]; exact H.
  - intros label l0 l1 l2 l3 l4 default help.
    eexists. split; [apply init_static|].
    intros instance fresh picked cleared.
    split; [|split; [|split; [|split; [|split]]]].
    + rewrite serialize_static. unfold picked. rewrite Hget_set. reflexivity.
    + exact (deserialize_static get_value __set__
               (DataItem.__init__ label (CKeys default) help) _
               (PShape 1 (-1)) [KInt 1; KInt 3] fresh []).
    + apply Hget_set.
    + rewrite serialize_static. unfold cleared. rewrite Hget_set. reflexivity.
    + exact (deserialize_static get_value __set__
               (DataItem.__init__ label (CKeys default) help) _
               (PShape 1 (-1)) [] fresh []).
    + apply Hget_set.
Qed.

(** A record instance that holds its values by label gives back what was set
    in it. *)
Lemma demo_get_set (self : MultipleChoiceItem.t)
    (instance : gmap string (list key)) (value : list key) :
  demo_get_value self (demo_set self instance value) = value.
Proof. unfold demo_get_value, demo_set. rewrite lookup_insert_eq. reflexivity. Qed.

(** [MultipleChoiceItem_serialize_roundtrip] on such an instance: the keys 1
    and 3 of five labels, read back into an empty instance. *)
Lemma MultipleChoiceItem_serialize_roundtrip_witness :
  exists item,
    MultipleChoiceItem.__init__ demo_utf8_to_unicode "sel"
      (ChoiceItem.Sequence
         [ChoiceItem.Label (Str "a"); ChoiceItem.Label (Str "b");
          ChoiceItem.Label (Str "c"); ChoiceItem.Label (Str "d");
          ChoiceItem.Label (Str "e")])
      [] "" = Returns item
    /\ MultipleChoiceItem.deserialize demo_get_value demo_set item ∅
         [Stream.Sequence
            [VBool false; VBool true; VBool false; VBool true; VBool false]]
       = Returns (<["sel"%string := [KInt 1; KInt 3]]> ∅, []).
Proof.
  destruct (MultipleChoiceItem_serialize_roundtrip
              (gmap string (list key)) demo_get_value demo_set demo_get_set
              demo_utf8_to_unicode) as [_ H].
  destruct (H "sel"%string (Str "a") (Str "b") (Str "c") (Str "d") (Str "e")
              [] ""%string) as (item & Hinit & Hrt).
  exists item. split; [exact Hinit|].
  destruct (Hrt ∅ ∅) as (_ & Hde & _).
  rewrite Hde. injection Hinit as <-. reflexivity.
Defined.

(** ** Layout helpers ([MultipleChoiceItem.horizontal], [vertical]) *)

(** [set_prop] changes the property it names and nothing else of the item. *)
Lemma set_prop_frame {V : Type} (self : DataItem.t V) (realm name : string)
    (v : prop V) :
  get_prop (set_prop self realm name v) realm name = Some v
  /\ (forall realm' name',
         (realm, name) <> (realm', name') ->
         get_prop (set_prop self realm name v) realm' name'
         = get_prop self realm' name')
  /\ DataItem.label (set_prop self realm name v) = DataItem.label self
  /\ DataItem.default (set_prop self realm name v) = DataItem.default self
  /\ DataItem.help (set_prop self realm name v) = DataItem.help self.
Proof.
  split; [apply get_set_prop_eq|].
  split; [intros; apply get_set_prop_ne; assumption|].
  repeat split.
Qed.

(** C10.  On a heap that holds [item] at [self], [horizontal(n)] and
    [vertical(n)] return [self] and change the state of [self] alone, by
    setting the shape of its display group to [(n, -1)] and [(-1, n)].  Every
    other property of the item, so every property of its data group and its
    choices among them, and its label, default and help are as before.  As
    the reference returned is [self], a second helper can be called on
    it. *)
Theorem MultipleChoiceItem_layout_frame :
  forall (h : MultipleChoiceItem.heap) (self : MultipleChoiceItem.ref)
         (item : MultipleChoiceItem.t) (n m : Z),
    let h0 := <[self := item]> h in
    let across := set_prop item "display" "shape" (PShape n (-1)) in
    let down := set_prop item "display" "shape" (PShape (-1) n) in
    MultipleChoiceItem.horizontal self n h0 = (self, <[self := across]> h)
    /\ MultipleChoiceItem.vertical self n h0 = (self, <[self := down]> h)
    /\ (forall other,
           other <> self ->
           (MultipleChoiceItem.horizontal self n h0).2 !! other = h0 !! other
           /\ (MultipleChoiceItem.vertical self n h0).2 !! other
              = h0 !! other)
    /\ (forall shape,
           let item' := set_prop item "display" "shape" shape in
           get_prop item' "display" "shape" = Some shape
           /\ (forall realm name,
                  (realm, name) <> ("display"%string, "shape"%string) ->
                  get_prop item' realm name = get_prop item realm name)
           /\ (forall name,
                  get_prop item' "data" name = get_prop item "data" name)
           /\ get_prop item' "data" "choices" = get_prop item "data" "choices"
           /\ DataItem.label item' = DataItem.label item
           /\ DataItem.default item' = DataItem.default item
           /\ DataItem.help item' = DataItem.help item)
    /\ (let '(r, h1) := MultipleChoiceItem.horizontal self n h0 in
        MultipleChoiceItem.vertical r m h1)
       = (self,
          <[self := set_prop across "display" "shape" (PShape (-1) m)]> h).
Proof.
  intros h self item n m h0 across down.
  unfold MultipleChoiceItem.horizontal, MultipleChoiceItem.vertical, h0.
  unfold MultipleChoiceItem.heap, MultipleChoiceItem.ref,
    MultipleChoiceItem.t in *.
  rewrite !alter_insert_eq. fold across down.
  split; [reflexivity|]. split; [reflexivity|]. split.
  { intros other Hne. cbn [snd].
    rewrite !lookup_insert_ne by (intros ->; apply Hne; reflexivity).
    split; reflexivity. }
  split; [|reflexivity].
  intros shape. cbv zeta.
  split; [apply get_set_prop_eq|].
  split; [intros realm name Hne; apply get_set_prop_ne;
          intros H; apply Hne; symmetry; exact H|].
  split; [intros name; apply get_set_prop_ne; discriminate|].
  split; [apply get_set_prop_ne; discriminate|].
  repeat split.
Qed.

(** * Further properties *)

(** ** Integer bounds ([NumericTypeItem.check_value]) *)


(** ** Evaluation of text ([NumericTypeItem.from_string]) *)

(** X2.  [from_string] hands to [eval] only texts made of characters of the
    grammar, followed or not by one newline: two evaluators that agree on
    those texts give the same result on every text.  So a text that holds a
    letter other than e, a quote, a space or an underscore is never
    evaluated. *)
Theorem NumericTypeItem_from_string_evaluates_grammar_only
    (eval eval' : string -> result value)
    (call : pytype -> value -> result value)
    (Hagree : forall t,
        spec_grammar t = true ->
        eval t = eval' t
        /\ eval (t ++ String NumericTypeItem.LF EmptyString)%string
           = eval' (t ++ String NumericTypeItem.LF EmptyString)%string) :
  forall self text,
    NumericTypeItem.from_string eval call self text
    = NumericTypeItem.from_string eval' call self text.
Proof.
  intros self text. rewrite !from_string_unfold.
  destruct (NumericTypeItem.re_match text) eqn:Hm; [|reflexivity].
  apply re_match_spec in Hm.
  assert (Heq : eval text = eval' text).
  { destruct Hm as [Hg|(t & -> & Hg)]; apply (Hagree _ Hg). }
  rewrite Heq. reflexivity.
Qed.

Lemma other_eval_agrees (t : string) :
  spec_grammar t = true ->
  PyEval.eval t = other_eval t
  /\ PyEval.eval (t ++ String NumericTypeItem.LF EmptyString)%string
     = other_eval (t ++ String NumericTypeItem.LF EmptyString)%string.
Proof.
  intros Hg. unfold other_eval. split.
  - assert (H : NumericTypeItem.re_match t = true)
      by (apply re_match_spec; left; exact Hg).
    rewrite H. reflexivity.
  - assert (H : NumericTypeItem.re_match
                  (t ++ String NumericTypeItem.LF EmptyString)%string = true)
      by (apply re_match_spec; right; exists t; split; [reflexivity|exact Hg]).
    rewrite H. reflexivity.
Qed.

(** [NumericTypeItem_from_string_evaluates_grammar_only] on two evaluators
    that differ on the text [abc]. *)
Lemma NumericTypeItem_from_string_evaluates_grammar_only_witness :
  PyEval.eval "abc" <> other_eval "abc"
  /\ NumericTypeItem.from_string PyEval.eval PyEval.call plain_int_item "abc"
     = NumericTypeItem.from_string other_eval PyEval.call plain_int_item "abc".
Proof.
  split; [discriminate|].
  apply (NumericTypeItem_from_string_evaluates_grammar_only
           PyEval.eval other_eval PyEval.call other_eval_agrees).
Defined.

(** ** Path items ([FileSaveItem], [FileOpenItem], [DirectoryItem]) *)

Lemma length_pos_nonempty (s : string) :
  (0 <? String.length s)%nat = true <-> s <> EmptyString.
Proof.
  destruct s; simpl; split; intros H; try congruence; try reflexivity.
  discriminate.
Qed.

(** X3.  [FileSaveItem.check_value] is true iff the value is a string
    ([str] or [unicode]) that is not empty.  Unlike the check of
    [StringItem], its base class, it rejects every value that is no string;
    what it accepts, [StringItem.check_value] accepts too, whatever
    [notempty]. *)
Theorem FileSaveItem_check_value_spec :
  (forall v : value,
      FileSaveItem.check_value v = true <->
      exists s, (v = VStr s \/ v = VUnicode s) /\ s <> EmptyString)
  /\ (forall (v : value) (base : StringItem.t),
         FileSaveItem.check_value v = true ->
         StringItem.check_value base v = true).
Proof.
  split.
  - intros v. unfold FileSaveItem.check_value. split.
    + destruct v; simpl; try discriminate; intros H;
        apply length_pos_nonempty in H; eauto.
    + intros (s & [-> | ->] & Hs); simpl; apply length_pos_nonempty; exact Hs.
  - intros v base. unfold FileSaveItem.check_value, StringItem.check_value.
    destruct v; simpl; try discriminate; intros H;
      apply length_pos_nonempty in H; destruct s; try congruence;
      simpl; rewrite andb_false_r; reflexivity.
Qed.

(** X4.  [FileOpenItem.check_value] is true iff the value is a string that
    names an existing regular file, [DirectoryItem.check_value] iff it names
    an existing directory.  No regular file being a directory, no value
    passes both; the empty path not existing, what either accepts
    [FileSaveItem.check_value] accepts too. *)
Theorem FileOpenItem_DirectoryItem_check_value_spec
    (exists_ isfile isdir : string -> bool)
    (Hdisjoint : forall path, isfile path = true -> isdir path = false)
    (Hempty : exists_ EmptyString = false) :
  (forall v,
      FileOpenItem.check_value exists_ isfile v = true <->
      exists path,
        as_string v = Some path
        /\ exists_ path = true /\ isfile path = true)
  /\ (forall v,
         DirectoryItem.check_value exists_ isdir v = true <->
         exists path,
           as_string v = Some path
           /\ exists_ path = true /\ isdir path = true)
  /\ (forall v,
         FileOpenItem.check_value exists_ isfile v = true ->
         DirectoryItem.check_value exists_ isdir v = false)
  /\ (forall v,
         FileOpenItem.check_value exists_ isfile v = true
         \/ DirectoryItem.check_value exists_ isdir v = true ->
         FileSaveItem.check_value v = true).
Proof.
  unfold FileOpenItem.check_value, DirectoryItem.check_value,
    FileSaveItem.check_value.
  split; [|split; [|split]].
  - intros v. destruct (as_string v) as [path|].
    + rewrite andb_true_iff. split; [eauto|].
      intros (p & [= <-] & H). exact H.
    + split; [discriminate|]. intros (p & H & _). discriminate.
  - intros v. destruct (as_string v) as [path|].
    + rewrite andb_true_iff. split; [eauto|].
      intros (p & [= <-] & H). exact H.
    + split; [discriminate|]. intros (p & H & _). discriminate.
  - intros v. destruct (as_string v) as [path|]; [|discriminate].
    intros H. apply andb_true_iff in H as [_ H].
    rewrite (Hdisjoint _ H). apply andb_false_r.
  - intros v. destruct (as_string v) as [path|]; [|intros [H|H]; discriminate].
    intros H. apply length_pos_nonempty. intros ->.
    rewrite Hempty in H. destruct H as [H|H]; discriminate.
Qed.

Lemma demo_disjoint (path : string) :
  demo_isfile path = true -> demo_isdir path = false.
Proof.
  unfold demo_isfile, demo_isdir. intros H.
  apply String.eqb_eq in H as ->. reflexivity.
Qed.

(** [FileOpenItem_DirectoryItem_check_value_spec] on the file system with
    the directory [/etc] and the file [/etc/passwd]. *)
Lemma FileOpenItem_DirectoryItem_check_value_spec_witness :
  FileOpenItem.check_value demo_exists demo_isfile (VStr "/etc/passwd") = true
  /\ DirectoryItem.check_value demo_exists demo_isdir (VStr "/etc/passwd")
     = false.
Proof.
  split; [reflexivity|].
  apply (FileOpenItem_DirectoryItem_check_value_spec
           demo_exists demo_isfile demo_isdir demo_disjoint eq_refl).
  reflexivity.
Defined.

(** X5.  [FilesOpenItem.check_value] of a sequence of paths is the
    conjunction of [FileOpenItem.check_value] of each path, be it a [str] or
    a [unicode]; so the check of two sequences put end to end is the
    conjunction of their checks, and one path that fails makes the sequence
    fail wherever it stands. *)
Theorem FilesOpenItem_check_value_each
    (exists_ isfile : string -> bool) :
  (forall value,
      FilesOpenItem.check_value exists_ isfile value
      = forallb
          (fun path => FileOpenItem.check_value exists_ isfile (VStr path))
          value
      /\ FilesOpenItem.check_value exists_ isfile value
         = forallb
             (fun path =>
                FileOpenItem.check_value exists_ isfile (VUnicode path))
             value)
  /\ (forall value value',
         FilesOpenItem.check_value exists_ isfile (value ++ value')
         = FilesOpenItem.check_value exists_ isfile value
           && FilesOpenItem.check_value exists_ isfile value')
  /\ (forall value value' path,
         FileOpenItem.check_value exists_ isfile (VStr path) = false ->
         FilesOpenItem.check_value exists_ isfile (value ++ path :: value')
         = false).
Proof.
  unfold FilesOpenItem.check_value.
  assert (Hfold : forall value,
             fold_left
               (fun allexist path => allexist && exists_ path && isfile path)
               value true
             = forallb (fun path => exists_ path && isfile path) value).
  { intros value. rewrite allexist_fold. reflexivity. }
  split; [|split].
  - intros value. rewrite Hfold. split; reflexivity.
  - intros value value'. rewrite !Hfold. apply forallb_app.
  - intros value value' path Hp. rewrite Hfold, forallb_app. simpl.
    unfold FileOpenItem.check_value in Hp. simpl in Hp. rewrite Hp.
    simpl. apply andb_false_r.
Qed.

(** ** Keys of the normalized choices ([ChoiceItem.__init__]) *)

Lemma keys_normalize_from (utf8_to_unicode : string -> string)
    (choices : list ChoiceItem.choice) (n : nat) :
  map (fun e : entry => e.1.1)
    (map (fun '(idx, choice) =>
            ChoiceItem._normalize_choice utf8_to_unicode idx choice)
       (ChoiceItem.enumerate (Z.of_nat n) choices))
  = imap (fun i => key_at (n + i)) choices.
Proof.
  revert n. induction choices as [|c choices IH]; intros n; [reflexivity|].
  cbn [ChoiceItem.enumerate map imap]. f_equal.
  - rewrite Nat.add_0_r. destruct c as [k [s|s]|[s|s]]; reflexivity.
  - replace (Z.of_nat n + 1) with (Z.of_nat (S n)) by lia.
    rewrite IH. apply imap_ext. intros i x _. simpl.
    f_equal. lia.
Qed.

Lemma keys_normalize (utf8_to_unicode : string -> string)
    (choices : list ChoiceItem.choice) :
  keys (ChoiceItem.normalize_choices utf8_to_unicode choices)
  = imap key_at choices.
Proof.
  unfold keys. rewrite normalize_choices_map.
  apply (keys_normalize_from utf8_to_unicode choices 0).
Qed.

Lemma imap_label_keys (labels : list text) (n : nat) :
  imap (fun i => key_at (n + i)) (map ChoiceItem.Label labels)
  = map KInt (seqZ (Z.of_nat n) (Z.of_nat (length labels))).
Proof.
  revert n. induction labels as [|l labels IH]; intros n; [reflexivity|].
  cbn [map imap length].
  rewrite seqZ_cons by lia. cbn [map]. f_equal.
  - simpl. f_equal. lia.
  - replace (Z.pred (Z.of_nat (S (length labels))))
      with (Z.of_nat (length labels)) by lia.
    replace (Z.succ (Z.of_nat n)) with (Z.of_nat (S n)) by lia.
    rewrite <- IH. apply imap_ext. intros i x _. simpl. f_equal. lia.
Qed.

Lemma imap_tuple_keys (f : nat -> ChoiceItem.choice -> key)
    (pairs : list (key * text)) :
  (forall i k l, f i (ChoiceItem.Tuple k l) = k) ->
  imap f (map (fun p => ChoiceItem.Tuple p.1 p.2) pairs) = map fst pairs.
Proof.
  revert f. induction pairs as [|[k l] pairs IH]; intros f Hf; [reflexivity|].
  cbn [map imap fst snd]. rewrite Hf. f_equal.
  apply IH. intros i k' l'. apply Hf.
Qed.

(** X6.  The key of the normalized entry at position [i] is the key of the
    tuple given there, or [i] for a label.  So a sequence of labels gets the
    keys 0, 1, ..., n-1, which are distinct, and a sequence of tuples keeps
    its keys in order.  Keys are not checked for duplicates: a tuple with
    the key 1 followed by a label gives the key 1 twice. *)
Theorem ChoiceItem_normalized_keys (utf8_to_unicode : string -> string) :
  (forall choices,
      keys (ChoiceItem.normalize_choices utf8_to_unicode choices)
      = imap key_at choices)
  /\ (forall labels,
         keys (ChoiceItem.normalize_choices utf8_to_unicode
                 (map ChoiceItem.Label labels))
         = map KInt (seqZ 0 (Z.of_nat (length labels)))
         /\ NoDup (keys (ChoiceItem.normalize_choices utf8_to_unicode
                           (map ChoiceItem.Label labels))))
  /\ (forall pairs : list (key * text),
         keys (ChoiceItem.normalize_choices utf8_to_unicode
                 (map (fun p => ChoiceItem.Tuple p.1 p.2) pairs))
         = map fst pairs)
  /\ (forall a b,
         keys (ChoiceItem.normalize_choices utf8_to_unicode
                 [ChoiceItem.Tuple (KInt 1) a; ChoiceItem.Label b])
         = [KInt 1; KInt 1]).
Proof.
  split; [apply keys_normalize|]. split; [|split].
  - intros labels.
    assert (Hk : keys (ChoiceItem.normalize_choices utf8_to_unicode
                         (map ChoiceItem.Label labels))
                 = map KInt (seqZ 0 (Z.of_nat (length labels)))).
    { rewrite keys_normalize. apply (imap_label_keys labels 0). }
    split; [exact Hk|]. rewrite Hk.
    apply NoDup_fmap_2; [intros x y [= ->]; reflexivity|apply NoDup_seqZ].
  - intros pairs. rewrite keys_normalize. apply imap_tuple_keys.
    intros i k l. reflexivity.
  - intros a b. rewrite keys_normalize. reflexivity.
Qed.

(** ** Construction of a choice item ([ChoiceItem.__init__]) *)


(** ** Composition of the layout helpers *)

Lemma set_prop_set_prop {V : Type} (self : DataItem.t V)
    (realm name : string) (v v' : prop V) :
  set_prop (set_prop self realm name v) realm name v'
  = set_prop self realm name v'.
Proof.
  unfold set_prop. simpl. f_equal.
  rewrite lookup_insert_eq. simpl.
  rewrite insert_insert_eq, insert_insert_eq. reflexivity.
Qed.

(** X8.  The layout helpers overwrite one another: on a heap that holds an
    item at [self], calling one helper after another leaves the heap the last
    call alone would leave.  An item just built has the shape [(1, -1)], so
    [horizontal(1)] changes nothing of it. *)
Theorem MultipleChoiceItem_layout_last_wins :
  forall (h : MultipleChoiceItem.heap) (self : MultipleChoiceItem.ref)
         (item : MultipleChoiceItem.t) (n m : Z),
    let h0 := <[self := item]> h in
    (let '(r, h1) := MultipleChoiceItem.horizontal self n h0 in
     MultipleChoiceItem.vertical r m h1)
    = MultipleChoiceItem.vertical self m h0
    /\ (let '(r, h1) := MultipleChoiceItem.vertical self n h0 in
        MultipleChoiceItem.horizontal r m h1)
       = MultipleChoiceItem.horizontal self m h0
    /\ (let '(r, h1) := MultipleChoiceItem.horizontal self n h0 in
        MultipleChoiceItem.horizontal r m h1)
       = MultipleChoiceItem.horizontal self m h0
    /\ (let '(r, h1) := MultipleChoiceItem.vertical self n h0 in
        MultipleChoiceItem.vertical r m h1)
       = MultipleChoiceItem.vertical self m h0
    /\ (forall utf8_to_unicode label choices default help built,
           MultipleChoiceItem.__init__ utf8_to_unicode label choices default
             help = Returns built ->
           MultipleChoiceItem.horizontal self 1 (<[self := built]> h)
           = (self, <[self := built]> h)).
Proof.
  intros h self item n m h0.
  unfold MultipleChoiceItem.horizontal, MultipleChoiceItem.vertical, h0.
  unfold MultipleChoiceItem.heap, MultipleChoiceItem.ref,
    MultipleChoiceItem.t in *.
  rewrite !alter_insert_eq, !set_prop_set_prop.
  repeat (split; [reflexivity|]).
  intros utf8_to_unicode label choices default help built Hb.
  rewrite alter_insert_eq. f_equal. f_equal.
  unfold MultipleChoiceItem.__init__ in Hb.
  destruct (ChoiceItem.__init__ utf8_to_unicode label choices
              (ChoiceItem.Default (CKeys default)) help) as [it|e];
    [|discriminate].
  injection Hb as <-. apply set_prop_set_prop.
Qed.

(** [MultipleChoiceItem.__init__] returns an item for three labels. *)
Lemma MultipleChoiceItem_layout_last_wins_witness :
  exists built,
    MultipleChoiceItem.__init__ demo_utf8_to_unicode "n"
      (ChoiceItem.Sequence
         [ChoiceItem.Label (Str "1"); ChoiceItem.Label (Str "2");
          ChoiceItem.Label (Str "3")]) [] "" = Returns built
    /\ MultipleChoiceItem.horizontal 1%positive 1 (<[1%positive := built]> ∅)
       = (1%positive, <[1%positive := built]> ∅).
Proof.
  eexists. split; [reflexivity|].
  apply (MultipleChoiceItem_layout_last_wins ∅ 1%positive
           (DataItem.__init__ "" CNone "") 0 0) with
    (utf8_to_unicode := demo_utf8_to_unicode) (label := "n"%string)
    (choices := ChoiceItem.Sequence
                  [ChoiceItem.Label (Str "1"); ChoiceItem.Label (Str "2");
                   ChoiceItem.Label (Str "3")])
    (default := []) (help := ""%string).
  reflexivity.
Defined.

(** ** Reading any sequence of flags ([MultipleChoiceItem.deserialize]) *)

Section Decode.

Import MultipleChoiceItem.

Context {Inst : Type}.
Variable get_value : t -> Inst -> list key.
Variable __set__ : t -> Inst -> list key -> Inst.

(** Once an index is out of range the loop keeps the exception. *)
Lemma deserialize_fold_raises (all : list entry) (e : exn)
    (flags : list (Z * value)) :
  fold_left
    (fun acc '(idx, flag) =>
       bind acc
         (fun value : list key =>
            if truth flag then
              match all !! Z.to_nat idx with
              | Some (key, _, _) => Returns (value ++ [key])
              | None => Raises IndexError
              end
            else Returns value))
    flags (Raises e)
  = Raises e.
Proof.
  induction flags as [|[idx flag] flags IH]; [reflexivity|]. exact IH.
Qed.

Lemma picked_nil (flags : list value) : picked flags [] = [].
Proof. unfold picked. destruct flags; reflexivity. Qed.

Lemma deserialize_fold_any (all : list entry) (flags : list value) (n : nat)
    (acc : list key) :
  fold_left
    (fun acc '(idx, flag) =>
       bind acc
         (fun value : list key =>
            if truth flag then
              match all !! Z.to_nat idx with
              | Some (key, _, _) => Returns (value ++ [key])
              | None => Raises IndexError
              end
            else Returns value))
    (ChoiceItem.enumerate (Z.of_nat n) flags) (Returns acc)
  = if existsb truth (drop (length all - n) flags) then Raises IndexError
    else Returns (acc ++ picked flags (keys (drop n all))).
Proof.
  revert n acc. induction flags as [|f flags IH]; intros n acc.
  - rewrite drop_nil. simpl. rewrite app_nil_r. reflexivity.
  - cbn [ChoiceItem.enumerate fold_left bind].
    replace (Z.of_nat n + 1) with (Z.of_nat (S n)) by lia.
    rewrite Nat2Z.id.
    destruct (all !! n) as [[[k lbl] img]|] eqn:Hn.
    + assert (Hlt : (n < length all)%nat) by (eapply lookup_lt_Some; eauto).
      replace (length all - n)%nat with (S (length all - S n)) by lia.
      assert (Hd : drop n all = (k, lbl, img) :: drop (S n) all)
        by (apply drop_S; exact Hn).
      rewrite Hd. cbn [keys map fst snd].
      unfold picked. cbn [combine List.filter fst].
      destruct (truth f); cbn [map snd].
      * rewrite IH, <- app_assoc. reflexivity.
      * rewrite IH. reflexivity.
    + assert (Hge : (length all <= n)%nat) by (apply lookup_ge_None; exact Hn).
      replace (length all - n)%nat with 0%nat by lia.
      rewrite (drop_ge all n) by lia. cbn [drop existsb keys map].
      rewrite picked_nil.
      destruct (truth f); cbn [orb].
      * apply deserialize_fold_raises.
      * rewrite IH. replace (length all - S n)%nat with 0%nat by lia.
        rewrite (drop_ge all (S n)) by lia. cbn [drop keys map].
        rewrite picked_nil. reflexivity.
Qed.

Lemma deserialize_static_any (self : DataItem.t choice_value) (l : list entry)
    (shape : prop choice_value) (flags : list value) (fresh : Inst)
    (rest : Stream.reader) :
  let item :=
    set_prop (set_prop self "data" "choices" (PChoices l))
      "display" "shape" shape in
  deserialize get_value __set__ item fresh (Stream.Sequence flags :: rest)
  = if existsb truth (drop (length l) flags) then Raises IndexError
    else Returns (__set__ item fresh (picked flags (keys l)), rest).
Proof.
  intros item. unfold deserialize, item. cbn [Stream.read_sequence bind].
  rewrite choices_of_static. cbn [bind].
  pose proof (deserialize_fold_any l flags 0 []) as Hfold.
  change (Z.of_nat 0) with 0 in Hfold. rewrite Hfold.
  rewrite Nat.sub_0_r, drop_0.
  destruct (existsb truth (drop (length l) flags)); reflexivity.
Qed.

End Decode.

(** X9.  For an item built from a sequence of choices and any sequence of
    flags, [deserialize] raises [IndexError] iff a flag that is true stands
    at a position past the last choice, and the value of the instance is
    then not set; otherwise it sets the value to the keys at the positions
    of the true flags, in order.  Flags that are fewer than the choices leave
    the last choices out, false flags past the last choice are ignored, and
    a flag counts by its truth value. *)
Theorem MultipleChoiceItem_deserialize_any_flags
    (Inst : Type)
    (get_value : MultipleChoiceItem.t -> Inst -> list key)
    (__set__ : MultipleChoiceItem.t -> Inst -> list key -> Inst)
    (utf8_to_unicode : string -> string) :
  forall label choices default help,
  exists item,
    MultipleChoiceItem.__init__ utf8_to_unicode label
      (ChoiceItem.Sequence choices) default help = Returns item
    /\ forall flags fresh rest,
        let ks := keys (ChoiceItem.normalize_choices utf8_to_unicode choices) in
        let late := drop (length choices) flags in
        (MultipleChoiceItem.deserialize get_value __set__ item fresh
           (Stream.Sequence flags :: rest) = Raises IndexError
         <-> exists f, In f late /\ truth f = true)
        /\ ((forall f, In f late -> truth f = false) ->
            MultipleChoiceItem.deserialize get_value __set__ item fresh
              (Stream.Sequence flags :: rest)
            = Returns (__set__ item fresh (picked flags ks), rest))
        /\ (forall k, In k (picked flags ks) -> In k ks)
        /\ (length (picked flags ks) <= length flags)%nat.
Proof.
  intros label choices default help. eexists. split; [apply init_static|].
  intros flags fresh rest ks late.
  rewrite deserialize_static_any.
  assert (Hlen : length (ChoiceItem.normalize_choices utf8_to_unicode choices)
                 = length choices).
  { rewrite normalize_choices_map, length_map. apply enumerate_length. }
  rewrite Hlen. fold late.
  split; [|split; [|split]].
  - destruct (existsb truth late) eqn:He.
    + apply existsb_exists in He. split; [intros _; exact He|reflexivity].
    + split; [discriminate|]. intros Hex. apply existsb_exists in Hex.
      congruence.
  - intros Hall. destruct (existsb truth late) eqn:He; [|reflexivity].
    apply existsb_exists in He as (f & Hin & Hf).
    rewrite (Hall f Hin) in Hf. discriminate.
  - intros k Hk. unfold picked in Hk. apply in_map_iff in Hk
      as ([f k'] & <- & Hin). apply filter_In in Hin as [Hin _].
    apply in_combine_r in Hin. exact Hin.
  - unfold picked. rewrite length_map.
    pose proof (filter_length_le (fun p : value * key => truth (fst p))
                  (combine flags ks)) as Hle.
    pose proof (length_combine flags ks) as Hc. lia.
Qed.

(** ** From flags to the value and back *)

Lemma picked_In (flags : list value) (ks : list key) (k : key) :
  In k (picked flags ks) -> In k ks.
Proof.
  unfold picked. intros Hk.
  apply in_map_iff in Hk as ([f k'] & <- & Hin).
  apply filter_In in Hin as [Hin _]. apply in_combine_r in Hin. exact Hin.
Qed.

Lemma picked_cons (b : bool) (bs : list bool) (k : key) (ks : list key) :
  picked (map VBool (b :: bs)) (k :: ks)
  = (if b then [k] else []) ++ picked (map VBool bs) ks.
Proof. unfold picked. destruct b; reflexivity. Qed.

(** With distinct keys, the mask of the keys picked by booleans is these
    booleans. *)
Lemma mask_picked (ks : list key) (bs : list bool) :
  NoDup ks -> length bs = length ks ->
  mask (picked (map VBool bs) ks) ks = map VBool bs.
Proof.
  intros Hnd. revert bs. induction Hnd as [|k ks Hk Hnd IH]; intros bs Hlen.
  - destruct bs; [reflexivity|discriminate].
  - destruct bs as [|b bs]; [discriminate|]. injection Hlen as Hlen.
    rewrite picked_cons. unfold mask. cbn [map]. f_equal.
    + f_equal. destruct b; simpl.
      * apply bool_decide_eq_true_2. left.
      * apply bool_decide_eq_false_2. intros Hin.
        apply Hk, list_elem_of_In, (picked_In (map VBool bs)).
        apply list_elem_of_In. exact Hin.
    + etransitivity; [|apply (IH bs Hlen)]. unfold mask. apply map_ext_in.
      intros k' Hk'. f_equal. destruct b; simpl; [|reflexivity].
      apply bool_decide_ext. rewrite elem_of_cons. split; [|tauto].
      intros [->|H]; [|exact H]. exfalso. apply Hk, list_elem_of_In, Hk'.
Qed.

(** X10.  When the keys of the choices are distinct, reading a sequence of
    booleans that has one boolean per choice and writing the value read
    gives the same sequence back. *)
Theorem MultipleChoiceItem_deserialize_serialize
    (Inst : Type)
    (get_value : MultipleChoiceItem.t -> Inst -> list key)
    (__set__ : MultipleChoiceItem.t -> Inst -> list key -> Inst)
    (Hget_set : forall self instance value,
        get_value self (__set__ self instance value) = value)
    (utf8_to_unicode : string -> string)
    (label : string) (choices : list ChoiceItem.choice)
    (default : list key) (help : string) (bs : list bool)
    (Hdistinct :
       NoDup (keys (ChoiceItem.normalize_choices utf8_to_unicode choices)))
    (Hlength : length bs = length choices) :
  exists item,
    MultipleChoiceItem.__init__ utf8_to_unicode label
      (ChoiceItem.Sequence choices) default help = Returns item
    /\ forall fresh rest writer,
        exists instance',
          MultipleChoiceItem.deserialize get_value __set__ item fresh
            (Stream.Sequence (map VBool bs) :: rest)
          = Returns (instance', rest)
          /\ MultipleChoiceItem.serialize get_value item instance' writer
             = Returns (writer ++ [Stream.Sequence (map VBool bs)]).
Proof.
  eexists. split; [apply init_static|].
  intros fresh rest writer.
  assert (Hlen : length (ChoiceItem.normalize_choices utf8_to_unicode choices)
                 = length choices).
  { rewrite normalize_choices_map, length_map. apply enumerate_length. }
  eexists. split.
  - rewrite deserialize_static_any.
    rewrite Hlen, <- Hlength, <- (length_map VBool bs), drop_all.
    reflexivity.
  - rewrite serialize_static, Hget_set, mask_picked; [reflexivity|exact Hdistinct|].
    unfold keys. rewrite length_map, Hlen. exact Hlength.
Qed.

(** [MultipleChoiceItem_deserialize_serialize] on five labels, whose keys
    are 0 to 4, and an instance that holds its values by label. *)
Lemma MultipleChoiceItem_deserialize_serialize_witness :
  exists item,
    MultipleChoiceItem.__init__ demo_utf8_to_unicode "sel"
      (ChoiceItem.Sequence
         [ChoiceItem.Label (Str "a"); ChoiceItem.Label (Str "b");
          ChoiceItem.Label (Str "c"); ChoiceItem.Label (Str "d");
          ChoiceItem.Label (Str "e")])
      [] "" = Returns item
    /\ forall fresh rest writer,
        exists instance',
          MultipleChoiceItem.deserialize demo_get_value demo_set item fresh
            (Stream.Sequence
               (map VBool [false; true; false; true; false]) :: rest)
          = Returns (instance', rest)
          /\ MultipleChoiceItem.serialize demo_get_value item instance' writer
             = Returns
                 (writer
                  ++ [Stream.Sequence
                        (map VBool [false; true; false; true; false])]).
Proof.
  apply (MultipleChoiceItem_deserialize_serialize
           (gmap string (list key)) demo_get_value demo_set demo_get_set
           demo_utf8_to_unicode).
  - apply (bool_decide_unpack _). vm_compute. exact I.
  - reflexivity.
Defined.

(** With a key that stands twice the flags are not read back: the flags
    [True, False] on the keys 1, 1 come back as [True, True]. *)
Lemma duplicate_keys_lose_flags :
  let ks :=
    keys (ChoiceItem.normalize_choices demo_utf8_to_unicode
            [ChoiceItem.Tuple (KInt 1) (Str "a"); ChoiceItem.Label (Str "b")]) in
  mask (picked [VBool true; VBool false] ks) ks = [VBool true; VBool true].
Proof. vm_compute. reflexivity. Qed.

(** ** Choices with images ([ImageChoiceItem._normalize_choice]) *)

Section ImageChoices.

Import ImageChoiceItem.

Variable utf8_to_unicode : string -> string.

Lemma image_normalize_cases (idx : Z) (t : list value) :
  (length t = 2%nat \/ length t = 3%nat) /\
  (exists e, _normalize_choice utf8_to_unicode idx t = Returns e)
  \/ (length t <> 2%nat /\ length t <> 3%nat)
     /\ _normalize_choice utf8_to_unicode idx t = Raises ValueError.
Proof.
  destruct t as [|a [|b [|c [|d t]]]]; simpl.
  - right. split; [lia|reflexivity].
  - right. split; [lia|reflexivity].
  - left. split; [lia|]. eauto.
  - left. split; [lia|]. eauto.
  - right. split; [lia|reflexivity].
Qed.

Lemma image_fold_raises (e : exn) (l : list (Z * list value)) :
  fold_left
    (fun _choices_data '(idx, choice) =>
       bind _choices_data
         (fun data =>
            bind (_normalize_choice utf8_to_unicode idx choice)
              (fun e => Returns (data ++ [e]))))
    l (Raises e)
  = Raises e.
Proof. induction l as [|[idx t] l IH]; [reflexivity|exact IH]. Qed.

Lemma image_fold_good (choices : list (list value)) (n : nat)
    (acc : list entry) :
  Forall (fun t => length t = 2%nat \/ length t = 3%nat) choices ->
  exists es,
    fold_left
      (fun _choices_data '(idx, choice) =>
         bind _choices_data
           (fun data =>
              bind (_normalize_choice utf8_to_unicode idx choice)
                (fun e => Returns (data ++ [e]))))
      (ChoiceItem.enumerate (Z.of_nat n) choices) (Returns acc)
    = Returns (acc ++ es)
    /\ length es = length choices
    /\ forall (i : nat) t,
        choices !! i = Some t ->
        exists e,
          _normalize_choice utf8_to_unicode (Z.of_nat (n + i)) t = Returns e
          /\ es !! i = Some e.
Proof.
  intros Hgood. revert n acc.
  induction Hgood as [|t choices Ht Hgood IH]; intros n acc.
  - exists []. simpl. rewrite app_nil_r. repeat split. intros i t H.
    discriminate.
  - cbn [ChoiceItem.enumerate fold_left bind].
    destruct (image_normalize_cases (Z.of_nat n) t)
      as [[_ [e He]]|[[H2 H3] _]]; [|destruct Ht; contradiction].
    rewrite He. cbn [bind].
    replace (Z.of_nat n + 1) with (Z.of_nat (S n)) by lia.
    destruct (IH (S n) (acc ++ [e])) as (es & Hfold & Hlen & Hes).
    exists (e :: es). split; [|split].
    + rewrite Hfold, <- app_assoc. reflexivity.
    + simpl. rewrite Hlen. reflexivity.
    + intros [|i] t' Hi; simpl in Hi.
      * injection Hi as <-. exists e. rewrite Nat.add_0_r. split;
          [exact He|reflexivity].
      * destruct (Hes i t' Hi) as (e' & He' & Hl). exists e'.
        replace (n + S i)%nat with (S n + i)%nat by lia.
        split; [exact He'|exact Hl].
Qed.

Lemma image_fold_bad (choices : list (list value)) (n : nat)
    (acc : list entry) :
  Exists (fun t => length t <> 2%nat /\ length t <> 3%nat) choices ->
  fold_left
    (fun _choices_data '(idx, choice) =>
       bind _choices_data
         (fun data =>
            bind (_normalize_choice utf8_to_unicode idx choice)
              (fun e => Returns (data ++ [e]))))
    (ChoiceItem.enumerate (Z.of_nat n) choices) (Returns acc)
  = Raises ValueError.
Proof.
  intros Hbad. revert n acc.
  induction choices as [|t choices IH]; intros n acc;
    [inversion Hbad|].
  cbn [ChoiceItem.enumerate fold_left bind].
  replace (Z.of_nat n + 1) with (Z.of_nat (S n)) by lia.
  destruct (image_normalize_cases (Z.of_nat n) t)
    as [[Ht [e He]]|[_ He]]; rewrite He; cbn [bind].
  - apply IH. inversion Hbad as [? ? [H2 H3]|]; subst; [|assumption].
    destruct Ht; contradiction.
  - apply image_fold_raises.
Qed.

End ImageChoices.

(** X11.  An image choice given as [(key, label, image)] keeps its key and
    its image; given as [(label, image)] it gets its position as key and
    keeps its image; a byte-string label is decoded.  A sequence of such
    tuples normalizes to as many entries, in order, each the normalization
    of the tuple at its position.  A tuple that has neither two items nor
    three makes the normalization of the whole sequence raise
    [ValueError]. *)
Theorem ImageChoiceItem_normalize_choices_spec
    (utf8_to_unicode : string -> string) :
  let decoded value :=
    match value with
    | VStr s => VUnicode (utf8_to_unicode s)
    | _ => value
    end in
  (forall idx key value img,
      ImageChoiceItem._normalize_choice utf8_to_unicode idx [key; value; img]
      = Returns (key, decoded value, img))
  /\ (forall idx value img,
         ImageChoiceItem._normalize_choice utf8_to_unicode idx [value; img]
         = Returns (VInt idx, decoded value, img))
  /\ (forall choices,
         Forall (fun t => length t = 2%nat \/ length t = 3%nat) choices ->
         exists data,
           ImageChoiceItem.normalize_choices utf8_to_unicode choices
           = Returns data
           /\ length data = length choices
           /\ forall (i : nat) t,
               choices !! i = Some t ->
               exists e,
                 ImageChoiceItem._normalize_choice utf8_to_unicode
                   (Z.of_nat i) t = Returns e
                 /\ data !! i = Some e)
  /\ (forall choices,
         Exists (fun t => length t <> 2%nat /\ length t <> 3%nat) choices ->
         ImageChoiceItem.normalize_choices utf8_to_unicode choices
         = Raises ValueError).
Proof.
  intros decoded. split; [|split; [|split]].
  - intros. reflexivity.
  - intros. reflexivity.
  - intros choices Hgood.
    destruct (image_fold_good utf8_to_unicode choices 0 [] Hgood)
      as (es & Hfold & Hlen & Hes).
    exists es. split; [exact Hfold|]. split; [exact Hlen|exact Hes].
  - intros choices Hbad.
    apply (image_fold_bad utf8_to_unicode choices 0 [] Hbad).
Qed.

(** * Properties of the distribution helpers *)

(** ** Version numbers ([strip_version]) *)

Section StripVersion.

Import Disthelpers.

Lemma startswith_nil (s : string) : startswith s EmptyString = true.
Proof. destruct s; reflexivity. Qed.

Lemma startswith_refl (s : string) : startswith s s = true.
Proof.
  induction s as [|c s IH]; [reflexivity|].
  simpl. rewrite Ascii.eqb_refl. exact IH.
Qed.

Lemma startswith_trans (s p q : string) :
  startswith s p = true -> startswith p q = true -> startswith s q = true.
Proof.
  revert s p. induction q as [|c q IH]; intros s p Hsp Hpq;
    [apply startswith_nil|].
  destruct p as [|b p]; [discriminate|].
  destruct s as [|a s]; [discriminate|].
  simpl in *. apply andb_true_iff in Hsp as [Hba Hsp].
  apply andb_true_iff in Hpq as [Hcb Hpq].
  apply Ascii.eqb_eq in Hba as ->. rewrite Hcb. simpl.
  exact (IH _ _ Hsp Hpq).
Qed.

Lemma startswith_app (s p : string) :
  startswith s p = true <-> exists r, s = (p ++ r)%string.
Proof.
  revert s. induction p as [|a p IH]; intros s.
  - split; [exists s; reflexivity|intros _; apply startswith_nil].
  - destruct s as [|b s]; simpl.
    + split; [discriminate|]. intros [r H]. discriminate.
    + rewrite andb_true_iff, Ascii.eqb_eq, IH. split.
      * intros [-> [r ->]]. exists r. reflexivity.
      * intros [r [= -> ->]]. split; [reflexivity|]. exists r. reflexivity.
Qed.

Lemma before_nil (sep : string) : before sep EmptyString = EmptyString.
Proof. destruct sep; reflexivity. Qed.

Lemma before_cons (sep : string) (c : ascii) (s : string) :
  startswith (String c s) sep = false ->
  before sep (String c s) = String c (before sep s).
Proof. intros H. cbn [before]. rewrite H. reflexivity. Qed.

(** What [before] returns is a prefix of the text. *)
Lemma before_prefix (sep s : string) : startswith s (before sep s) = true.
Proof.
  induction s as [|c s IH]; [rewrite before_nil; reflexivity|].
  cbn [before]. destruct (startswith (String c s) sep); [reflexivity|].
  simpl. rewrite Ascii.eqb_refl. exact IH.
Qed.

(** A word that occurs in a prefix of a text occurs in the text. *)
Lemma occurs_prefix (sep p s : string) :
  startswith s p = true -> occurs sep p = true -> occurs sep s = true.
Proof.
  revert s. induction p as [|b p IH]; intros s Hsp Hocc.
  - cbn [occurs] in Hocc. rewrite orb_false_r in Hocc.
    destruct sep; [|discriminate]. destruct s; reflexivity.
  - destruct s as [|a s]; [discriminate|].
    pose proof Hsp as Hsp'. simpl in Hsp'.
    apply andb_true_iff in Hsp' as [_ Htl].
    cbn [occurs] in *. apply orb_true_iff in Hocc as [Hocc|Hocc].
    + rewrite (startswith_trans _ _ _ Hsp Hocc). reflexivity.
    + rewrite (IH _ Htl Hocc). apply orb_true_r.
Qed.

(** The separator does not occur in what stands before it. *)
Lemma occurs_before (sep s : string) :
  sep <> EmptyString -> occurs sep (before sep s) = false.
Proof.
  intros Hsep. induction s as [|c s IH].
  - rewrite before_nil. destruct sep; [contradiction|reflexivity].
  - cbn [before]. destruct (startswith (String c s) sep) eqn:Hst.
    + destruct sep; [contradiction|reflexivity].
    + cbn [occurs]. rewrite IH, orb_false_r.
      destruct (startswith (String c (before sep s)) sep) eqn:H;
        [|reflexivity].
      rewrite <- Hst. symmetry.
      apply (startswith_trans _ (String c (before sep s))); [|exact H].
      simpl. rewrite Ascii.eqb_refl. apply before_prefix.
Qed.

(** A text in which the separator does not occur is kept whole. *)
Lemma before_absent (sep s : string) :
  occurs sep s = false -> before sep s = s.
Proof.
  induction s as [|c s IH]; intros Hocc.
  - apply before_nil.
  - cbn [occurs] in Hocc. apply orb_false_iff in Hocc as [Hst Hocc].
    rewrite (before_cons _ _ _ Hst), (IH Hocc). reflexivity.
Qed.

Lemma occurs_absent_prefix (sep p s : string) :
  startswith s p = true -> occurs sep s = false -> occurs sep p = false.
Proof.
  intros Hsp Hs. destruct (occurs sep p) eqn:Hp; [|reflexivity].
  rewrite (occurs_prefix _ _ _ Hsp Hp) in Hs. discriminate.
Qed.

Lemma strip_version_markers_absent (version : string) :
  Forall (fun m => occurs m (strip_version version) = false) markers.
Proof.
  unfold strip_version, markers.
  set (s1 := before "beta" version).
  set (s2 := before "alpha" s1). set (s3 := before "rc" s2).
  set (s4 := before "dev" s3).
  assert (H1 : occurs "beta" s1 = false) by (apply occurs_before; discriminate).
  assert (H2 : occurs "alpha" s2 = false) by (apply occurs_before; discriminate).
  assert (H3 : occurs "rc" s3 = false) by (apply occurs_before; discriminate).
  assert (H4 : occurs "dev" s4 = false) by (apply occurs_before; discriminate).
  assert (P2 : startswith s1 s2 = true) by apply before_prefix.
  assert (P3 : startswith s2 s3 = true) by apply before_prefix.
  assert (P4 : startswith s3 s4 = true) by apply before_prefix.
  repeat constructor.
  - apply (occurs_absent_prefix _ _ s1); [|exact H1].
    apply (startswith_trans _ s2); [exact P2|].
    apply (startswith_trans _ s3); [exact P3|exact P4].
  - apply (occurs_absent_prefix _ _ s2); [|exact H2].
    apply (startswith_trans _ s3); [exact P3|exact P4].
  - apply (occurs_absent_prefix _ _ s3); [exact P4|exact H3].
  - exact H4.
Qed.

Lemma strip_version_fixed (version : string) :
  Forall (fun m => occurs m version = false) markers ->
  strip_version version = version.
Proof.
  unfold markers. intros H.
  inversion H as [|? ? Hb H1]; subst. inversion H1 as [|? ? Ha H2]; subst.
  inversion H2 as [|? ? Hr H3]; subst. inversion H3 as [|? ? Hd _]; subst.
  unfold strip_version.
  rewrite (before_absent _ _ Hb), (before_absent _ _ Ha),
    (before_absent _ _ Hr), (before_absent _ _ Hd).
  reflexivity.
Qed.

End StripVersion.

(** X12.  [strip_version] returns a prefix of the version in which none of
    the words beta, alpha, rc and dev occurs.  A version that holds none of
    them is returned as it is, so stripping twice is stripping once. *)
Theorem strip_version_prefix_without_markers :
  forall version : string,
    Disthelpers.startswith version (Disthelpers.strip_version version) = true
    /\ Forall
         (fun m =>
            Disthelpers.occurs m (Disthelpers.strip_version version) = false)
         markers
    /\ (Forall (fun m => Disthelpers.occurs m version = false) markers ->
        Disthelpers.strip_version version = version)
    /\ Disthelpers.strip_version (Disthelpers.strip_version version)
       = Disthelpers.strip_version version.
Proof.
  intros version. split; [|split; [|split]].
  - unfold Disthelpers.strip_version.
    eapply startswith_trans; [|apply before_prefix].
    eapply startswith_trans; [|apply before_prefix].
    eapply startswith_trans; [|apply before_prefix].
    apply before_prefix.
  - apply strip_version_markers_absent.
  - apply strip_version_fixed.
  - apply strip_version_fixed, strip_version_markers_absent.
Qed.

Section CutAtMarker.

Import Disthelpers.

Lemma startswith_cons_prefix (m : string) (c : ascii) (s p : string) :
  startswith (String c s) m = false -> startswith s p = true ->
  startswith (String c p) m = false.
Proof.
  intros Hs Hp. destruct (startswith (String c p) m) eqn:H; [|reflexivity].
  rewrite <- Hs. symmetry.
  apply (startswith_trans _ (String c p)); [|exact H].
  simpl. rewrite Ascii.eqb_refl. exact Hp.
Qed.

(** Where no marker begins, the first character is kept and the rest is
    stripped. *)
Lemma strip_version_cons (c : ascii) (s : string) :
  existsb (startswith (String c s)) markers = false ->
  strip_version (String c s) = String c (strip_version s).
Proof.
  unfold markers. cbn [existsb]. rewrite !orb_false_iff.
  intros (Hb & Ha & Hr & Hd & _). unfold strip_version.
  set (s1 := before "beta" s). set (s2 := before "alpha" s1).
  set (s3 := before "rc" s2).
  assert (P1 : startswith s s1 = true) by apply before_prefix.
  assert (P2 : startswith s s2 = true)
    by (apply (startswith_trans _ s1); [exact P1|apply before_prefix]).
  assert (P3 : startswith s s3 = true)
    by (apply (startswith_trans _ s2); [exact P2|apply before_prefix]).
  rewrite (before_cons _ _ _ Hb). fold s1.
  rewrite (before_cons _ _ _ (startswith_cons_prefix _ _ _ _ Ha P1)). fold s2.
  rewrite (before_cons _ _ _ (startswith_cons_prefix _ _ _ _ Hr P2)). fold s3.
  rewrite (before_cons _ _ _ (startswith_cons_prefix _ _ _ _ Hd P3)).
  reflexivity.
Qed.

(** Where a marker begins, nothing is kept. *)
Lemma strip_version_at_marker (s : string) :
  existsb (startswith s) markers = true ->
  strip_version s = EmptyString.
Proof.
  unfold markers. cbn [existsb]. rewrite !orb_true_iff.
  intros [H|[H|[H|[H|H]]]]; [| | | |discriminate];
    apply startswith_app in H as [r ->]; reflexivity.
Qed.

End CutAtMarker.

(** X13.  [strip_version] cuts the version at the first position where one
    of the words beta, alpha, rc and dev begins: the four splits, done one
    after the other, stop where the earliest of the four words starts,
    whichever it is. *)
Theorem strip_version_cuts_at_first_marker :
  forall version : string,
    Disthelpers.strip_version version = cut_at_marker version.
Proof.
  induction version as [|c s IH]; [reflexivity|].
  cbn [cut_at_marker].
  destruct (existsb (Disthelpers.startswith (String c s)) markers) eqn:Hm.
  - apply strip_version_at_marker. exact Hm.
  - rewrite (strip_version_cons _ _ Hm), IH. reflexivity.
Qed.

(** ** Data files ([to_include_files]) *)

Section IncludeFiles.

Import Disthelpers.

Variable join : string -> string -> string.
Variable basename : string -> string.

Lemma include_inner (dest_dir : string) (fnames : list string)
    (acc : list (string * string)) :
  fold_left
    (fun include_files source_fname =>
       let dest_fname := join dest_dir (basename source_fname) in
       include_files ++ [(source_fname, dest_fname)])
    fnames acc
  = acc ++ map (include_of join basename dest_dir) fnames.
Proof.
  revert acc. induction fnames as [|f fnames IH]; intros acc.
  - simpl. rewrite app_nil_r. reflexivity.
  - simpl. rewrite IH, <- app_assoc. reflexivity.
Qed.

Lemma include_outer (data_files : list (string * list string))
    (acc : list (string * string)) :
  fold_left
    (fun include_files '(dest_dir, fnames) =>
       fold_left
         (fun include_files source_fname =>
            let dest_fname := join dest_dir (basename source_fname) in
            include_files ++ [(source_fname, dest_fname)])
         fnames include_files)
    data_files acc
  = acc ++ flat_map (fun '(dest_dir, fnames) =>
                       map (include_of join basename dest_dir) fnames) data_files.
Proof.
  revert acc. induction data_files as [|[d fs] data_files IH]; intros acc.
  - simpl. rewrite app_nil_r. reflexivity.
  - cbn [fold_left flat_map]. rewrite include_inner, IH, <- app_assoc.
    reflexivity.
Qed.

Lemma to_include_files_flat_map (data_files : list (string * list string)) :
  to_include_files join basename data_files
  = flat_map (fun '(dest_dir, fnames) => map (include_of join basename dest_dir) fnames)
      data_files.
Proof. unfold to_include_files. rewrite include_outer. reflexivity. Qed.

End IncludeFiles.

(** X14.  [to_include_files] gives one pair per source file, in the order of
    the data files and of their file names: the source files of the result
    are those of the data files put end to end, none lost and none added,
    each paired with its base name joined to its destination directory.  The
    result for two lists of data files put end to end is the two results put
    end to end. *)
Theorem to_include_files_spec
    (join : string -> string -> string) (basename : string -> string) :
  forall data_files : list (string * list string),
    Disthelpers.to_include_files join basename data_files
    = flat_map
        (fun '(dest_dir, fnames) =>
           map (include_of join basename dest_dir) fnames)
        data_files
    /\ map fst (Disthelpers.to_include_files join basename data_files)
       = concat (map snd data_files)
    /\ (forall src dst,
           In (src, dst)
             (Disthelpers.to_include_files join basename data_files)
           <-> exists dest_dir fnames,
                 In (dest_dir, fnames) data_files
                 /\ In src fnames
                 /\ dst = join dest_dir (basename src))
    /\ (forall more,
           Disthelpers.to_include_files join basename (data_files ++ more)
           = Disthelpers.to_include_files join basename data_files
             ++ Disthelpers.to_include_files join basename more).
Proof.
  intros data_files. split; [apply to_include_files_flat_map|].
  split; [|split].
  - rewrite to_include_files_flat_map.
    induction data_files as [|[d fs] data_files IH]; [reflexivity|].
    cbn [flat_map map concat snd]. rewrite map_app, IH. f_equal.
    rewrite map_map. simpl. apply map_id.
  - intros src dst. rewrite to_include_files_flat_map, in_flat_map. split.
    + intros ([d fs] & Hin & Hmap). apply in_map_iff in Hmap
        as (f & [= <- <-] & Hf). exists d, fs. repeat split; assumption.
    + intros (d & fs & Hin & Hsrc & ->). exists (d, fs). split; [exact Hin|].
      apply in_map_iff. exists src. split; [reflexivity|exact Hsrc].
  - intros more. rewrite !to_include_files_flat_map. apply flat_map_app.
Qed.

(** ** Lists shared by the instances ([Distribution.setup]) *)

Section SharedLists.

Import Distribution.

Lemma lookup_iadd_opt (x y : positive) (l : option (list string))
    (h : gmap positive (list string)) :
  iadd_opt x l h !! y
  = if decide (x = y)
    then (fun items => items ++ from_option id [] l) <$> h !! y
    else h !! y.
Proof.
  unfold iadd_opt, iadd. destruct l as [l|]; simpl.
  - destruct (decide (x = y)) as [->|Hne].
    + apply lookup_alter_eq.
    + apply lookup_alter_ne. exact Hne.
  - destruct (decide (x = y)); [|reflexivity].
    destruct (h !! y); simpl; [rewrite app_nil_r|]; reflexivity.
Qed.

Variable os_name : string.
Variable isfile : string -> bool.
Variable create_vs2008_data_files : error + list (string * list string).
Variable cx_Freeze : bool.

(** Once the script is found to be a file, the heap [setup] leaves is the
    same whether it ends well or with an exception. *)
Lemma setup_heap (self : t) (h : gmap positive (list string))
    (a : setup_args) :
  isfile (a_script a) = true ->
  (setup os_name isfile create_vs2008_data_files cx_Freeze self h a).1.2
  = iadd_opt (bin_path_excludes self) (a_bin_path_excludes a)
      (iadd_opt (bin_path_includes self) (a_bin_path_includes a)
         (iadd_opt (bin_excludes self) (a_bin_excludes a)
            (iadd_opt (bin_includes self) (a_bin_includes a)
               (iadd_opt (excludes self) (a_excludes a)
                  (iadd_opt (includes self) (a_includes a) h))))).
Proof.
  intros Hscript. unfold setup. rewrite Hscript. cbn [negb].
  destruct (match a_vs2008 a with Some b => b | None => vs2008 self end);
    [destruct create_vs2008_data_files|]; destruct cx_Freeze; reflexivity.
Qed.

End SharedLists.

(** X15.  The instances of [Distribution] share the six lists of the class:
    an instance made by [__init__] holds them by reference.  When the script
    is a file, [setup] on one instance extends each of these lists in place
    by the items given for it, also when it ends with an exception of
    [create_vs2008_data_files] or of the import of [cx_Freeze]; every other
    instance, made before or after, then reads the extended lists, while its
    own [data_files] and [executables] are empty lists of its own. *)
Theorem Distribution_setup_extends_class_lists
    (os_name : string) (isfile : string -> bool)
    (create_vs2008_data_files :
       Distribution.error + list (string * list string))
    (cx_Freeze : bool) (a : Distribution.setup_args)
    (Hscript : isfile (Distribution.a_script a) = true) :
  forall (h : gmap positive (list string)) (os_name' : string),
    let after :=
      (Distribution.setup os_name isfile create_vs2008_data_files cx_Freeze
         (Distribution.__init__ os_name) h a).1.2 in
    let extended (l : option (list string)) (items : list string) :=
      items ++ from_option id [] l in
    let other := Distribution.__init__ os_name' in
    after !! Distribution.includes other
    = extended (Distribution.a_includes a)
        <$> h !! Distribution.DEFAULT_INCLUDES
    /\ after !! Distribution.excludes other
       = extended (Distribution.a_excludes a)
           <$> h !! Distribution.DEFAULT_EXCLUDES
    /\ after !! Distribution.bin_includes other
       = extended (Distribution.a_bin_includes a)
           <$> h !! Distribution.DEFAULT_BIN_INCLUDES
    /\ after !! Distribution.bin_excludes other
       = extended (Distribution.a_bin_excludes a)
           <$> h !! Distribution.DEFAULT_BIN_EXCLUDES
    /\ after !! Distribution.bin_path_includes other
       = extended (Distribution.a_bin_path_includes a)
           <$> h !! Distribution.DEFAULT_BIN_PATH_INCLUDES
    /\ after !! Distribution.bin_path_excludes other
       = extended (Distribution.a_bin_path_excludes a)
           <$> h !! Distribution.DEFAULT_BIN_PATH_EXCLUDES
    /\ Distribution.data_files other = []
    /\ Distribution.executables other = [].
Proof.
  intros h os_name' after extended other. unfold after.
  rewrite (setup_heap _ _ _ _ _ _ _ Hscript).
  cbn [Distribution.__init__ Distribution.includes Distribution.excludes
       Distribution.bin_includes Distribution.bin_excludes
       Distribution.bin_path_includes Distribution.bin_path_excludes
       Distribution.data_files Distribution.executables other].
  rewrite !lookup_iadd_opt.
  repeat split.
Qed.

(** [Distribution_setup_extends_class_lists] on the heap of the class: after
    a [setup] that excludes numpy and scipy, another instance excludes them
    too. *)
Lemma Distribution_setup_extends_class_lists_witness :
  Distribution.read
    (Distribution.setup "posix" demo_isfile (inr []) true
       (Distribution.__init__ "posix") Distribution.class_heap
       demo_setup_args).1.2
    (Distribution.excludes (Distribution.__init__ "nt"))
  = Distribution.read Distribution.class_heap Distribution.DEFAULT_EXCLUDES
    ++ ["numpy"; "scipy"]%string.
Proof.
  destruct (Distribution_setup_extends_class_lists "posix" demo_isfile
              (inr []) true demo_setup_args eq_refl
              Distribution.class_heap "nt") as (_ & H & _).
  unfold Distribution.read. rewrite H. reflexivity.
Defined.

(** * More on the items *)

(** ** Floats and integers ([NumericTypeItem.check_value]) *)

Lemma nan_not_lt (y : float) : (nan <? y)%float = false.
Proof. rewrite ltb_spec. reflexivity. Qed.

Lemma not_lt_nan (y : float) : (y <? nan)%float = false.
Proof.
  rewrite ltb_spec. change (Prim2SF nan) with S754_nan.
  destruct (Prim2SF y); reflexivity.
Qed.

(** X16.  The type test separates integers and floats: a float item rejects
    every [int], [long] and [bool], whatever its constraints, and an integer
    item rejects every float and every [long].  A float item accepts the
    NaN whatever its bounds and its [nonzero] flag, as no comparison with a
    NaN holds. *)
Theorem NumericTypeItem_check_value_types_and_nan :
  forall label default min max nonzero help,
    let float_item := FloatItem.__init__ label default min max nonzero help in
    let int_item :=
      NumericTypeItem.__init__ TInt label default min max nonzero help in
    NumericTypeItem.check_value float_item (VFloat nan) = true
    /\ (forall z b,
           NumericTypeItem.check_value float_item (VInt z) = false
           /\ NumericTypeItem.check_value float_item (VLong z) = false
           /\ NumericTypeItem.check_value float_item (VBool b) = false)
    /\ (forall f z,
           NumericTypeItem.check_value int_item (VFloat f) = false
           /\ NumericTypeItem.check_value int_item (VLong z) = false).
Proof.
  intros label default min max nonzero help float_item int_item.
  split; [|repeat split].
  unfold float_item. rewrite check_value_unfold. simpl.
  rewrite andb_false_r. simpl.
  destruct min as [[x|x]|]; destruct max as [[y|y]|]; simpl;
    unfold py_gt; simpl; rewrite ?nan_not_lt, ?not_lt_nan; reflexivity.
Qed.

(** ** Paths from text ([FilesOpenItem.from_string]) *)

Section PathsFromText.

Import FilesOpenItemText.

Variable add_extension : value -> result value.

Lemma from_string_plain (eval : string -> result value) (text : string) :
  Disthelpers.endswith text "']" = false ->
  from_string eval add_extension text
  = bind (add_extension (VUnicode text)) (fun p => Returns [p]).
Proof.
  intros Hend. unfold from_string, NumericTypeItem.unicode. rewrite Hend.
  cbn [bind iterate]. unfold add_extensions. cbn [fold_left bind].
  destruct (add_extension (VUnicode text)); reflexivity.
Qed.

Lemma add_extensions_from (f : value -> value) (paths done : list value) :
  (forall p, In p paths -> add_extension p = Returns (f p)) ->
  fold_left
    (fun acc path =>
       bind acc
         (fun done =>
            bind (add_extension path) (fun p => Returns (done ++ [p]))))
    paths (Returns done)
  = Returns (done ++ map f paths).
Proof.
  revert done. induction paths as [|p paths IH]; intros done Hall.
  - cbn [fold_left map]. rewrite app_nil_r. reflexivity.
  - cbn [fold_left bind map].
    rewrite (Hall p (or_introl eq_refl)). cbn [bind].
    rewrite IH by (intros q Hq; apply Hall; right; exact Hq).
    rewrite <- app_assoc. reflexivity.
Qed.

Lemma add_extensions_first_failure
    (f : value -> value) (good rest : list value) (bad : value) (e : exn) :
  (forall p, In p good -> add_extension p = Returns (f p)) ->
  add_extension bad = Raises e ->
  add_extensions add_extension (good ++ bad :: rest) = Raises e.
Proof.
  intros Hgood Hbad. unfold add_extensions.
  rewrite fold_left_app, (add_extensions_from f good [] Hgood).
  cbn [fold_left bind app]. rewrite Hbad. cbn [bind].
  induction rest as [|r rest IH]; [reflexivity|exact IH].
Qed.

End PathsFromText.

(** X17.  [FilesOpenItem.from_string] evaluates a text exactly when it ends
    with the two characters ['] and []]: any other text is not evaluated and
    gives the list of this one path with its extension added, and two
    evaluators give the same result on it.  A text that ends so is
    evaluated whatever else it holds, and an exception of the evaluation is
    not caught: it is the outcome of [from_string].  When the evaluation
    gives a list, the result holds one path per item, in the order of the
    list, each with its extension added; the first item whose extension
    cannot be added gives the exception of the whole. *)
Theorem FilesOpenItem_from_string_spec
    (add_extension : value -> result value) :
  (forall (eval eval' : string -> result value) text,
      Disthelpers.endswith text "']" = false ->
      FilesOpenItemText.from_string eval add_extension text
      = bind (add_extension (VUnicode text)) (fun p => Returns [p])
      /\ FilesOpenItemText.from_string eval add_extension text
         = FilesOpenItemText.from_string eval' add_extension text)
  /\ (forall (eval : string -> result value) text e,
         Disthelpers.endswith text "']" = true ->
         eval text = Raises e ->
         FilesOpenItemText.from_string eval add_extension text = Raises e)
  /\ (forall (eval : string -> result value) text paths f,
         Disthelpers.endswith text "']" = true ->
         eval text = Returns (VList paths) ->
         (forall p, In p paths -> add_extension p = Returns (f p)) ->
         FilesOpenItemText.from_string eval add_extension text
         = Returns (map f paths))
  /\ (forall (eval : string -> result value) text good bad rest f e,
         Disthelpers.endswith text "']" = true ->
         eval text = Returns (VList (good ++ bad :: rest)) ->
         (forall p, In p good -> add_extension p = Returns (f p)) ->
         add_extension bad = Raises e ->
         FilesOpenItemText.from_string eval add_extension text = Raises e).
Proof.
  split; [|split; [|split]].
  - intros eval eval' text Hend.
    rewrite !(from_string_plain add_extension _ _ Hend).
    split; reflexivity.
  - intros eval text e Hend He.
    unfold FilesOpenItemText.from_string, NumericTypeItem.unicode.
    rewrite Hend, He. reflexivity.
  - intros eval text paths f Hend He Hall.
    unfold FilesOpenItemText.from_string, NumericTypeItem.unicode.
    rewrite Hend, He. cbn [bind FilesOpenItemText.iterate].
    unfold FilesOpenItemText.add_extensions.
    rewrite (add_extensions_from add_extension f paths [] Hall).
    reflexivity.
  - intros eval text good bad rest f e Hend He Hgood Hbad.
    unfold FilesOpenItemText.from_string, NumericTypeItem.unicode.
    rewrite Hend, He. cbn [bind FilesOpenItemText.iterate].
    exact (add_extensions_first_failure add_extension f good rest bad e
             Hgood Hbad).
Qed.
